(** * Invoice anomaly detection and invoice store

    A shallow embedding of [src/src/anomaly_detector.py]
    ([AdvancedAnomalyDetector]) and [src/src/database.py] ([InvoiceDB]).

    Modelling conventions.
    - Monetary amounts (Python floats) are exact rationals [Q]; comparisons
      are the ones the code writes, float rounding of products is not
      modelled.
    - [datetime.strptime(s, '%Y-%m-%d')] is an abstract parser
      [strptime : string -> option Z] returning the proleptic ordinal
      ([date.toordinal()]) of the parsed date, [None] where Python raises.
    - The [IsolationForest] fitted on a list of amounts is an abstract
      predicate [iforest_outlier : list Q -> Q -> bool]
      ([predict(...) == -1]).
    - Exceptions are values of [result]; [try]/[except] is [catch]. *)

From Stdlib Require Import QArith Qabs ZArith List String Ascii Bool Lia Lqa Sorted.
Import ListNotations.

Open Scope Q_scope.
Open Scope string_scope.

(** ** Python exceptions *)

Inductive exn : Type :=
| ValueError
| TypeError
| KeyError.

Inductive result (A : Type) : Type :=
| Ok : A -> result A
| Raise : exn -> result A.

Arguments Ok {A} _.
Arguments Raise {A} _.

Definition bind {A B} (m : result A) (f : A -> result B) : result B :=
  match m with
  | Ok a => f a
  | Raise e => Raise e
  end.

Notation "'let*' x ':=' m 'in' f" := (bind m (fun x => f))
  (at level 200, x name, m at level 100, f at level 200).

(** [try: m except: h] *)
Definition catch {A} (m : result A) (h : exn -> result A) : result A :=
  match m with
  | Ok a => Ok a
  | Raise e => h e
  end.

(** ** Numbers *)

Definition Qltb (x y : Q) : bool := negb (Qle_bool y x).

(** [x % m == 0] for a positive integer [m]: [x / m] is an integer. *)
Definition Qmod_zero (x : Q) (m : Z) : bool :=
  Z.eqb (Z.modulo (Qnum x) (m * Zpos (Qden x))) 0.

(** Round half to even of a rational to an integer (Python's [round]). *)
Definition round_half_even (x : Q) : Z :=
  let n := Qnum x in
  let d := Zpos (Qden x) in
  let fl := Z.div n d in
  let r := (n - fl * d)%Z in
  match Z.compare (2 * r)%Z d with
  | Lt => fl
  | Gt => (fl + 1)%Z
  | Eq => if Z.even fl then fl else (fl + 1)%Z
  end.

(** [round(x, 2)] *)
Definition round2 (x : Q) : Q := inject_Z (round_half_even (x * 100)) / 100.

Definition sumQ (l : list Q) : Q := fold_right Qplus 0 l.

(** [amounts.mean()] *)
Definition meanQ (l : list Q) : Q := sumQ l / inject_Z (Z.of_nat (List.length l)).

(** Population variance; [amounts.std()] is its square root (ddof = 0). *)
Definition varQ (l : list Q) : Q :=
  let m := meanQ l in
  sumQ (map (fun x => (x - m) * (x - m)) l) / inject_Z (Z.of_nat (List.length l)).

Fixpoint insertQ (x : Q) (l : list Q) : list Q :=
  match l with
  | [] => [x]
  | y :: t => if Qle_bool x y then x :: y :: t else y :: insertQ x t
  end.

Fixpoint sortQ (l : list Q) : list Q :=
  match l with
  | [] => []
  | x :: t => insertQ x (sortQ t)
  end.

(** [np.percentile(amounts, p)] with the default linear interpolation:
    position [(n - 1) * p / 100] in the sorted data. *)
Definition percentile (l : list Q) (p : nat) : Q :=
  let s := sortQ l in
  let k := ((List.length l - 1) * p)%nat in
  let lo := Nat.div k 100 in
  let frac := inject_Z (Z.of_nat (Nat.modulo k 100)) / 100 in
  let a := nth lo s 0 in
  let b := nth (S lo) s a in
  a + frac * (b - a).

(** ** Flags *)

Inductive flag : Type :=
| POTENTIAL_DUPLICATE
| EXTREME_AMOUNT_HIGH
| EXTREME_AMOUNT_LOW
| ROUND_AMOUNT_SUSPICIOUS
| TAX_CALCULATION_ANOMALY
| MISSING_VENDOR_INFO
| MISSING_INVOICE_ID
| STATISTICAL_OUTLIER
| EXTREME_Z_SCORE
| IQR_OUTLIER
| VENDOR_AMOUNT_DEVIATION
| EXCEEDS_VENDOR_HISTORICAL_MAX
| WEEKEND_INVOICE.

(** The string the code appends to [flags]. *)
Definition flag_name (f : flag) : string :=
  match f with
  | POTENTIAL_DUPLICATE => "POTENTIAL_DUPLICATE"
  | EXTREME_AMOUNT_HIGH => "EXTREME_AMOUNT_HIGH"
  | EXTREME_AMOUNT_LOW => "EXTREME_AMOUNT_LOW"
  | ROUND_AMOUNT_SUSPICIOUS => "ROUND_AMOUNT_SUSPICIOUS"
  | TAX_CALCULATION_ANOMALY => "TAX_CALCULATION_ANOMALY"
  | MISSING_VENDOR_INFO => "MISSING_VENDOR_INFO"
  | MISSING_INVOICE_ID => "MISSING_INVOICE_ID"
  | STATISTICAL_OUTLIER => "STATISTICAL_OUTLIER"
  | EXTREME_Z_SCORE => "EXTREME_Z_SCORE"
  | IQR_OUTLIER => "IQR_OUTLIER"
  | VENDOR_AMOUNT_DEVIATION => "VENDOR_AMOUNT_DEVIATION"
  | EXCEEDS_VENDOR_HISTORICAL_MAX => "EXCEEDS_VENDOR_HISTORICAL_MAX"
  | WEEKEND_INVOICE => "WEEKEND_INVOICE"
  end.

Definition flag_eqb (f g : flag) : bool := String.eqb (flag_name f) (flag_name g).

Definition in_strings (s : string) (l : list string) : bool :=
  existsb (String.eqb s) l.

(** ** Invoice rows as the detector sees them (a pandas row) *)

Record invoice : Type := mkInvoice {
  Invoice_ID : string;
  Vendor_Name : string;
  (** [None]: the key is absent, [.get('Invoice_Date', '')] gives [''] *)
  Invoice_Date : option string;
  Total_Amount : Q;
  (** [None]: ['Tax_Amount' in invoice] is false *)
  Tax_Amount : option Q
}.

Definition get_date (i : invoice) : string :=
  match Invoice_Date i with Some s => s | None => "" end.

(** [all_invoices]: [None] or a DataFrame of rows *)
Definition dataset : Type := option (list invoice).

Record analysis : Type := mkAnalysis {
  flags : list flag;
  risk_level : string;
  anomaly_type : string;
  risk_score : nat;
  anomaly_details : list (flag * string * Q)
}.

(** [self.amount_model]: [None], or the model fitted on these amounts *)
Definition detector_state : Type := option (list Q).

Record vendor_stats : Type := mkVendorStats {
  avg_amount : Q;
  max_amount : Q;
  std_amount : Q
}.

Section Detector.

(** [datetime.strptime(s, '%Y-%m-%d').toordinal()], [None] when it raises *)
Variable strptime : string -> option Z.
(** [IsolationForest(...).fit(amounts).predict([[x]])[0] == -1] *)
Variable iforest_outlier : list Q -> Q -> bool.

Definition strptime_r (s : string) : result Z :=
  match strptime s with
  | Some d => Ok d
  | None => Raise ValueError
  end.

(** [date.weekday()]: Monday is 0, ordinal 1 is a Monday. *)
Definition weekday (d : Z) : Z := Z.modulo (d + 6) 7.

(** The loop over [similar_invoices.iterrows()]: a row whose date does not
    parse is skipped ([continue]). *)
Fixpoint scan_similar (invoice_date : Z) (rows : list invoice) : result bool :=
  match rows with
  | [] => Ok false
  | r :: rest =>
      let step :=
        catch (let* similar_date := strptime_r (get_date r) in
               if Z.leb (Z.abs (similar_date - invoice_date)) 7
               then Ok (Some true) else Ok None)
              (fun _ => Ok None) in
      match step with
      | Ok (Some b) => Ok b
      | Ok None => scan_similar invoice_date rest
      | Raise e => Raise e
      end
  end.

(** [_is_duplicate_invoice] *)
Definition is_duplicate_invoice (inv : invoice) (all_invoices : dataset)
  : result bool :=
  match all_invoices with
  | None => Ok false
  | Some rows =>
      let vendor := Vendor_Name inv in
      let invoice_id := Invoice_ID inv in
      let amount := Total_Amount inv in
      if String.eqb vendor "UNKNOWN_VENDOR" || String.eqb invoice_id "NOT_FOUND"
      then Ok false
      else
        let exact_duplicates :=
          filter (fun r => String.eqb (Vendor_Name r) vendor
                           && String.eqb (Invoice_ID r) invoice_id) rows in
        if Nat.ltb 1 (List.length exact_duplicates) then Ok true
        else
          catch
            (let amount_tolerance := amount * (1 # 100) in
             let* invoice_date := strptime_r (get_date inv) in
             let similar_invoices :=
               filter (fun r => String.eqb (Vendor_Name r) vendor
                                && Qle_bool (Qabs (Total_Amount r - amount))
                                            amount_tolerance
                                && negb (String.eqb (Invoice_ID r) invoice_id))
                      rows in
             scan_similar invoice_date similar_invoices)
            (fun _ => Ok false)
  end.

(** [_check_business_rules] *)
Definition check_business_rules (inv : invoice) (all_invoices : dataset)
  : result (list flag) :=
  let* dup := is_duplicate_invoice inv all_invoices in
  let amount := Total_Amount inv in
  let f_dup := if dup then [POTENTIAL_DUPLICATE] else [] in
  let f_extreme :=
    if Qltb 50000 amount then [EXTREME_AMOUNT_HIGH]
    else if Qltb amount 10 then [EXTREME_AMOUNT_LOW] else [] in
  let f_round :=
    if Qmod_zero amount 1000 && Qltb 5000 amount
    then [ROUND_AMOUNT_SUSPICIOUS] else [] in
  let f_tax :=
    match Tax_Amount inv with
    | Some tax =>
        if Qltb 0 tax then
          let expected_tax := round2 (amount * (1 # 10)) in
          if Qltb 1 (Qabs (tax - expected_tax))
          then [TAX_CALCULATION_ANOMALY] else []
        else []
    | None => []
    end in
  let f_vendor :=
    if in_strings (Vendor_Name inv) ["UNKNOWN_VENDOR"; "NOT_FOUND"]
    then [MISSING_VENDOR_INFO] else [] in
  let f_id :=
    if in_strings (Invoice_ID inv) ["NOT_FOUND"; "UNKNOWN"]
    then [MISSING_INVOICE_ID] else [] in
  Ok (f_dup ++ f_extreme ++ f_round ++ f_tax ++ f_vendor ++ f_id)%list.

(** [_check_statistical_anomalies]: the flags and the updated
    [self.amount_model].  The z-score test
    [abs((x - mean) / std) > 3] is written [(x - mean)^2 > 9 * var]: for a
    positive [std] both say [|x - mean| > 3 * std]; for [std = 0] numpy
    gives [inf] (flag) when [x <> mean] and [nan] (no flag) otherwise. *)
Definition check_statistical_anomalies (st : detector_state) (inv : invoice)
  (all_invoices : dataset) : list flag * detector_state :=
  match all_invoices with
  | None => ([], st)
  | Some rows =>
      if Nat.ltb (List.length rows) 10 then ([], st)
      else
        let amounts := map Total_Amount rows in
        let model := match st with Some m => m | None => amounts end in
        let x := Total_Amount inv in
        let f_iforest := if iforest_outlier model x then [STATISTICAL_OUTLIER] else [] in
        let mean_amount := meanQ amounts in
        let d := x - mean_amount in
        let f_z := if Qltb (9 * varQ amounts) (d * d) then [EXTREME_Z_SCORE] else [] in
        let Q1 := percentile amounts 25 in
        let Q3 := percentile amounts 75 in
        let IQR := Q3 - Q1 in
        let lower_bound := Q1 - (3 # 2) * IQR in
        let upper_bound := Q3 + (3 # 2) * IQR in
        let f_iqr :=
          if Qltb x lower_bound || Qltb upper_bound x then [IQR_OUTLIER] else [] in
        ((f_iforest ++ f_z ++ f_iqr)%list, Some model)
  end.

(** [_get_vendor_statistics]: the source returns [None]. *)
Definition get_vendor_statistics (vendor_name : string) : option vendor_stats :=
  None.

(** [_check_vendor_behavior] *)
Definition check_vendor_behavior (inv : invoice) : list flag :=
  let vendor := Vendor_Name inv in
  let amount := Total_Amount inv in
  if in_strings vendor ["UNKNOWN_VENDOR"; "NOT_FOUND"] then []
  else
    match get_vendor_statistics vendor with
    | Some vs =>
        if Qltb 0 (avg_amount vs) then
          (if Qltb 3 (amount / avg_amount vs) then [VENDOR_AMOUNT_DEVIATION] else [])
          ++ (if Qltb (max_amount vs * (3 # 2)) amount
              then [EXCEEDS_VENDOR_HISTORICAL_MAX] else [])
        else []
    | None => []
    end.

(** [_check_temporal_anomalies] *)
Definition check_temporal_anomalies (inv : invoice) : result (list flag) :=
  catch (let* invoice_date := strptime_r (get_date inv) in
         if Z.leb 5 (weekday invoice_date) then Ok [WEEKEND_INVOICE] else Ok [])
        (fun _ => Ok []).

(** [_calculate_risk_level]: the amount adjustment is local to the call. *)
Definition calculate_risk_level (risk_score : nat) (amount : Q) : string :=
  let risk_score :=
    if Qltb 10000 amount then (risk_score + 2)%nat
    else if Qltb 5000 amount then (risk_score + 1)%nat
    else risk_score in
  if Nat.leb 5 risk_score then "High"
  else if Nat.leb 3 risk_score then "Medium"
  else "Low".

(** [_categorize_anomaly], on the flag strings *)
Definition categorize_anomaly (fl : list flag) : string :=
  let names := map flag_name fl in
  if in_strings "POTENTIAL_DUPLICATE" names then "Duplicate"
  else if existsb (String.prefix "EXTREME_AMOUNT") names then "Extreme Amount"
  else if existsb (fun n => in_strings n ["STATISTICAL_OUTLIER"; "EXTREME_Z_SCORE"; "IQR_OUTLIER"]) names
  then "Statistical Anomaly"
  else if existsb (String.prefix "VENDOR_") names then "Vendor Pattern Anomaly"
  else if existsb (fun n => in_strings n ["MISSING_VENDOR_INFO"; "MISSING_INVOICE_ID"]) names
  then "Data Quality Issue"
  else "No Anomaly".

(** [_get_anomaly_severity] *)
Definition get_anomaly_severity (f : flag) : string :=
  match f with
  | POTENTIAL_DUPLICATE | EXTREME_AMOUNT_HIGH | EXTREME_Z_SCORE
  | EXCEEDS_VENDOR_HISTORICAL_MAX => "High"
  | STATISTICAL_OUTLIER | IQR_OUTLIER | VENDOR_AMOUNT_DEVIATION
  | TAX_CALCULATION_ANOMALY => "Medium"
  | _ => "Low"
  end.

(** [_calculate_amount_impact] *)
Definition calculate_amount_impact (f : flag) (inv : invoice) : Q :=
  let amount := Total_Amount inv in
  match f with
  | POTENTIAL_DUPLICATE => amount
  | EXTREME_AMOUNT_HIGH => amount * (1 # 10)
  | STATISTICAL_OUTLIER => amount * (5 # 100)
  | TAX_CALCULATION_ANOMALY =>
      Qabs (match Tax_Amount inv with Some t => t | None => 0 end - amount * (1 # 10))
  | _ => 0
  end.

(** [analyze_invoice]: the result and the detector's [amount_model]
    afterwards.  The anomaly details keep the type, severity and amount
    impact of each flag (the description is display text). *)
Definition analyze_invoice (st : detector_state) (invoice_data : invoice)
  (all_invoices : dataset) : result (analysis * detector_state) :=
  let* basic_flags := check_business_rules invoice_data all_invoices in
  let '(statistical_flags, st') := check_statistical_anomalies st invoice_data all_invoices in
  let vendor_flags := check_vendor_behavior invoice_data in
  let* temporal_flags := check_temporal_anomalies invoice_data in
  let fl := (basic_flags ++ statistical_flags ++ vendor_flags ++ temporal_flags)%list in
  let risk_score :=
    (List.length basic_flags + List.length statistical_flags * 2
     + List.length vendor_flags + List.length temporal_flags)%nat in
  Ok (mkAnalysis fl
        (calculate_risk_level risk_score (Total_Amount invoice_data))
        (categorize_anomaly fl)
        risk_score
        (map (fun f => (f, get_anomaly_severity f, calculate_amount_impact f invoice_data)) fl),
      st').

End Detector.

(** ** A concrete date parser for examples

    [iso_ordinal] accepts the zero-padded form [YYYY-MM-DD] of a valid
    Gregorian date and returns [date.toordinal()] of it. *)

Definition digit (c : ascii) : option Z :=
  let n := Z.of_nat (nat_of_ascii c) in
  if (Z.leb 48 n && Z.leb n 57)%bool then Some (n - 48)%Z else None.

Fixpoint digits_from (acc : Z) (s : string) : option Z :=
  match s with
  | EmptyString => Some acc
  | String c rest =>
      match digit c with
      | Some d => digits_from (acc * 10 + d)%Z rest
      | None => None
      end
  end.

Definition is_leap (y : Z) : bool :=
  (Z.eqb (Z.modulo y 4) 0 && negb (Z.eqb (Z.modulo y 100) 0))
  || Z.eqb (Z.modulo y 400) 0.

Definition days_in_month (y m : Z) : Z :=
  match m with
  | 2%Z => if is_leap y then 29 else 28
  | 4%Z | 6%Z | 9%Z | 11%Z => 30
  | _ => 31
  end%Z.

Definition days_before_year (y : Z) : Z :=
  let y1 := (y - 1)%Z in
  (y1 * 365 + y1 / 4 - y1 / 100 + y1 / 400)%Z.

Definition days_before_month (y m : Z) : Z :=
  fold_right Z.add 0%Z
    (map (fun k => days_in_month y (Z.of_nat k)) (seq 1 (Z.to_nat (m - 1)))).

Definition iso_ordinal (s : string) : option Z :=
  match String.length s, String.get 4 s, String.get 7 s with
  | 10%nat, Some "-"%char, Some "-"%char =>
      match digits_from 0 (substring 0 4 s), digits_from 0 (substring 5 2 s),
            digits_from 0 (substring 8 2 s) with
      | Some y, Some m, Some d =>
          if (Z.leb 1 y && Z.leb 1 m && Z.leb m 12
              && Z.leb 1 d && Z.leb d (days_in_month y m))%bool
          then Some (days_before_year y + days_before_month y m + d)%Z
          else None
      | _, _, _ => None
      end
  | _, _, _ => None
  end.

(** A stand-in for the fitted isolation forest in examples. *)
Definition no_outlier (_ : list Q) (_ : Q) : bool := false.

(** ** The invoice store ([InvoiceDB], SQLite)

    A store holds the three tables in rowid order and the AUTOINCREMENT
    counters.  Foreign keys are not enforced: SQLite leaves
    [PRAGMA foreign_keys] off and the code never turns it on.  A
    connection's uncommitted work is discarded on [rollback] or [close], so
    a failed call returns the store it was given.  Timestamps are a natural
    number [now]; [created_at] columns are left out. *)

Record inv_row : Type := mkInvRow {
  r_id : nat;
  r_invoice_id : string;
  r_vendor_name : string;
  r_invoice_date : string;
  r_due_date : option string;
  r_total_amount : Q;
  r_tax_amount : Q;
  r_item_description : string;
  r_payment_terms : string;
  r_department : string;
  r_source_type : string;
  r_status : option string;
  r_risk_level : string;
  r_anomaly_type : string;
  r_processed_at : nat
}.

Record anomaly_row : Type := mkAnomalyRow {
  a_id : nat;
  a_invoice_id : string;
  a_anomaly_type : string;
  a_description : option string;
  a_severity : option string;
  a_amount_impact : Q
}.

Record log_row : Type := mkLogRow {
  l_id : nat;
  l_invoice_id : string;
  l_action : string;
  l_details : string;
  l_performed_by : string
}.

Record store : Type := mkStore {
  invoices : list inv_row;
  anomalies : list anomaly_row;
  processing_log : list log_row;
  seq_invoices : nat;
  seq_anomalies : nat;
  seq_log : nat
}.

(** [_init_database] on a fresh file *)
Definition store_init : store := mkStore [] [] [] 0 0 0.

(** The [invoice_data] dict passed to [save_invoice].  A required key
    ([invoice_data[k]]) is [None] when absent or [None] (a [KeyError] or a
    NOT NULL violation); an optional key ([.get(k, default)]) is [None]
    when absent. *)
Record invoice_data : Type := mkInvoiceData {
  d_invoice_id : option string;
  d_vendor_name : option string;
  d_invoice_date : option string;
  d_due_date : option string;
  d_total_amount : option Q;
  d_tax_amount : option Q;
  d_item_description : option string;
  d_payment_terms : option string;
  d_department : option string;
  d_source_type : option string;
  d_status : option string;
  d_risk_level : option string;
  d_anomaly_type : option string
}.

Definition get_or {A} (o : option A) (dflt : A) : A :=
  match o with Some a => a | None => dflt end.

Definition append_log (s : store) (iid action details : string) : store :=
  let n := S (seq_log s) in
  mkStore (invoices s) (anomalies s)
    (processing_log s ++ [mkLogRow n iid action details "system"])%list
    (seq_invoices s) (seq_anomalies s) n.

(** [INSERT OR REPLACE INTO invoices]: the row holding the same
    [invoice_id] (UNIQUE) is deleted and the new row is inserted. *)
Definition insert_or_replace (s : store) (row_of : nat -> inv_row) : store :=
  let n := S (seq_invoices s) in
  let row := row_of n in
  mkStore
    (filter (fun r => negb (String.eqb (r_invoice_id r) (r_invoice_id row))) (invoices s)
     ++ [row])%list
    (anomalies s) (processing_log s) n (seq_anomalies s) (seq_log s).

(** [save_invoice]: [True] and the committed store, or [False] and the
    store unchanged (rollback). *)
Definition save_invoice (now : nat) (s : store) (d : invoice_data) : bool * store :=
  match d_invoice_id d, d_vendor_name d, d_invoice_date d, d_total_amount d with
  | Some iid, Some vendor, Some date, Some total =>
      let risk := get_or (d_risk_level d) "Low" in
      let s1 := insert_or_replace s (fun n =>
        mkInvRow n iid vendor date (d_due_date d) total
          (get_or (d_tax_amount d) 0)
          (get_or (d_item_description d) "")
          (get_or (d_payment_terms d) "")
          (get_or (d_department d) "Unknown")
          (get_or (d_source_type d) "Digital")
          (Some (get_or (d_status d) "Pending"))
          risk
          (get_or (d_anomaly_type d) "No Anomaly")
          now) in
      let s2 := append_log s1 iid "SAVE"
                  ("Invoice saved/updated with risk level: " ++ risk) in
      (true, s2)
  | _, _, _, _ => (false, s)
  end.

(** [save_anomaly]: [invoice_id] and [anomaly_type] are NOT NULL; the
    parent invoice is not looked up. *)
Definition save_anomaly (s : store) (invoice_id anomaly_type : option string)
  (description severity : option string) (amount_impact : Q) : bool * store :=
  match invoice_id, anomaly_type with
  | Some iid, Some atype =>
      let n := S (seq_anomalies s) in
      (true, mkStore (invoices s)
               (anomalies s ++ [mkAnomalyRow n iid atype description severity amount_impact])%list
               (processing_log s) (seq_invoices s) n (seq_log s))
  | _, _ => (false, s)
  end.

(** [str(status)] in the f-string *)
Definition py_str (o : option string) : string :=
  match o with Some v => v | None => "None" end.

(** [notes or 'No notes'] *)
Definition notes_or (notes : option string) : string :=
  match notes with
  | Some v => if String.eqb v "" then "No notes" else v
  | None => "No notes"
  end.

(** [update_invoice_status]: the UPDATE touches the rows with that
    [invoice_id] (none, when there is no such row); the log insert needs a
    non-NULL [invoice_id]. *)
Definition update_invoice_status (now : nat) (s : store) (invoice_id : option string)
  (status : option string) (notes : option string) : bool * store :=
  match invoice_id with
  | Some iid =>
      let rows :=
        map (fun r => if String.eqb (r_invoice_id r) iid
                      then mkInvRow (r_id r) (r_invoice_id r) (r_vendor_name r)
                             (r_invoice_date r) (r_due_date r) (r_total_amount r)
                             (r_tax_amount r) (r_item_description r) (r_payment_terms r)
                             (r_department r) (r_source_type r) status
                             (r_risk_level r) (r_anomaly_type r) now
                      else r) (invoices s) in
      let s1 := mkStore rows (anomalies s) (processing_log s)
                  (seq_invoices s) (seq_anomalies s) (seq_log s) in
      (true, append_log s1 iid "STATUS_UPDATE"
               ("Status changed to " ++ py_str status ++ ". Notes: " ++ notes_or notes))
  | None => (false, s)
  end.

Inductive store_op : Type :=
| SaveInvoice (now : nat) (d : invoice_data)
| SaveAnomaly (invoice_id anomaly_type description severity : option string)
    (amount_impact : Q)
| UpdateStatus (now : nat) (invoice_id status notes : option string).

Definition step (s : store) (op : store_op) : bool * store :=
  match op with
  | SaveInvoice now d => save_invoice now s d
  | SaveAnomaly iid at_ desc sev imp => save_anomaly s iid at_ desc sev imp
  | UpdateStatus now iid st notes => update_invoice_status now s iid st notes
  end.

Definition run_ops (s : store) (ops : list store_op) : store :=
  fold_left (fun s op => snd (step s op)) ops s.

(** ** [search_invoices] *)

(** The [filters] dict; each key is [None] when absent. *)
Record filter_set : Type := mkFilters {
  f_vendor : option string;
  f_start_date : option string;
  f_end_date : option string;
  f_min_amount : option Q;
  f_max_amount : option Q;
  f_risk_level : option string;
  f_anomaly_type : option string;
  f_status : option string
}.

Definition no_filters : filter_set :=
  mkFilters None None None None None None None None.

(** [if filters.get(k):] is Python truthiness: an empty string or a zero
    number counts as absent. *)
Definition truthy_str (o : option string) : option string :=
  match o with
  | Some v => if String.eqb v "" then None else Some v
  | None => None
  end.

Definition truthy_num (o : option Q) : option Q :=
  match o with
  | Some v => if Qeq_bool v 0 then None else Some v
  | None => None
  end.

(** SQLite's LIKE: [%] matches any sequence, [_] one character, and
    ASCII letters match regardless of case. *)
Definition ascii_lower (c : ascii) : ascii :=
  let n := nat_of_ascii c in
  if (Nat.leb 65 n && Nat.leb n 90)%bool then ascii_of_nat (n + 32) else c.

Fixpoint like (p s : string) : bool :=
  match p with
  | EmptyString => match s with EmptyString => true | _ => false end
  | String c p' =>
      if Ascii.eqb c "%"%char then
        (fix star (t : string) : bool :=
           like p' t || match t with EmptyString => false | String _ t' => star t' end) s
      else
        match s with
        | EmptyString => false
        | String c' s' =>
            (Ascii.eqb c "_"%char || Ascii.eqb (ascii_lower c) (ascii_lower c'))
            && like p' s'
        end
  end.

(** The WHERE clause the code builds; TEXT compares byte-wise. *)
Definition where_clause (filters : option filter_set) (r : inv_row) : bool :=
  match filters with
  | None => true
  | Some f =>
      match truthy_str (f_vendor f) with
      | Some v => like ("%" ++ v ++ "%") (r_vendor_name r) | None => true end
      && match truthy_str (f_start_date f) with
         | Some v => String.leb v (r_invoice_date r) | None => true end
      && match truthy_str (f_end_date f) with
         | Some v => String.leb (r_invoice_date r) v | None => true end
      && match truthy_num (f_min_amount f) with
         | Some v => Qle_bool v (r_total_amount r) | None => true end
      && match truthy_num (f_max_amount f) with
         | Some v => Qle_bool (r_total_amount r) v | None => true end
      && match truthy_str (f_risk_level f) with
         | Some v => String.eqb (r_risk_level r) v | None => true end
      && match truthy_str (f_anomaly_type f) with
         | Some v => String.eqb (r_anomaly_type r) v | None => true end
      && match truthy_str (f_status f) with
         | Some v => match r_status r with
                     | Some st => String.eqb st v
                     | None => false
                     end
         | None => true
         end
  end.

(** [ORDER BY invoice_date DESC, total_amount DESC]; rows that tie keep
    their table order. *)
Definition row_before (a b : inv_row) : bool :=
  String.ltb (r_invoice_date b) (r_invoice_date a)
  || (String.eqb (r_invoice_date a) (r_invoice_date b)
      && Qle_bool (r_total_amount b) (r_total_amount a)).

Fixpoint insert_row (x : inv_row) (l : list inv_row) : list inv_row :=
  match l with
  | [] => [x]
  | y :: t => if row_before x y then x :: y :: t else y :: insert_row x t
  end.

Fixpoint order_rows (l : list inv_row) : list inv_row :=
  match l with
  | [] => []
  | x :: t => insert_row x (order_rows t)
  end.

(** [LIMIT ? OFFSET ?]: a negative limit means no limit, a negative
    offset starts at the first row. *)
Definition limit_offset (limit offset : Z) (l : list inv_row) : list inv_row :=
  let l' := skipn (Z.to_nat offset) l in
  if Z.ltb limit 0 then l' else firstn (Z.to_nat limit) l'.

Record search_result : Type := mkSearchResult {
  sr_invoices : list inv_row;
  sr_total_count : Z;
  sr_page : Z;
  sr_per_page : Z;
  sr_total_pages : Z
}.

Definition search_invoices (s : store) (filters : option filter_set) (page per_page : Z)
  : search_result :=
  let matching := order_rows (filter (where_clause filters) (invoices s)) in
  let total_count := Z.of_nat (List.length matching) in
  let offset := ((page - 1) * per_page)%Z in
  mkSearchResult (limit_offset per_page offset matching) total_count page per_page
    ((total_count + per_page - 1) / per_page)%Z.

(** The case folding SQLite's LIKE applies: ASCII letters only. *)
Fixpoint str_lower (s : string) : string :=
  match s with
  | EmptyString => EmptyString
  | String c t => String (ascii_lower c) (str_lower t)
  end.

(** ** [get_invoice_stats]

    The values of the statistics queries ([monthly_trends], which goes
    through [strftime], is left out).  [SUM] and [AVG] over no rows are
    NULL.  A [GROUP BY] without [ORDER BY] has no fixed row order in SQL;
    the groups are listed here in order of first appearance. *)

Fixpoint add_group (k : string) (groups : list (string * nat)) : list (string * nat) :=
  match groups with
  | [] => [(k, 1%nat)]
  | (k', n) :: rest =>
      if String.eqb k k' then (k', S n) :: rest else (k', n) :: add_group k rest
  end.

(** [SELECT key, COUNT( * ) FROM invoices GROUP BY key] *)
Definition group_count (key : inv_row -> string) (rows : list inv_row) : list (string * nat) :=
  fold_left (fun g r => add_group (key r) g) rows [].

Fixpoint add_vendor_group (k : string) (amount : Q) (groups : list (string * nat * Q))
  : list (string * nat * Q) :=
  match groups with
  | [] => [(k, 1%nat, amount)]
  | (k', n, total) :: rest =>
      if String.eqb k k' then (k', S n, total + amount) :: rest
      else (k', n, total) :: add_vendor_group k amount rest
  end.

(** [SELECT vendor_name, COUNT( * ), SUM(total_amount) ... GROUP BY vendor_name] *)
Definition vendor_groups (rows : list inv_row) : list (string * nat * Q) :=
  fold_left (fun g r => add_vendor_group (r_vendor_name r) (r_total_amount r) g) rows [].

(** [ORDER BY total_amount DESC] (ties in no particular order). *)
Fixpoint insert_by_total (x : string * nat * Q) (l : list (string * nat * Q))
  : list (string * nat * Q) :=
  match l with
  | [] => [x]
  | y :: t => if Qle_bool (snd y) (snd x) then x :: y :: t else y :: insert_by_total x t
  end.

Fixpoint sort_by_total (l : list (string * nat * Q)) : list (string * nat * Q) :=
  match l with
  | [] => []
  | x :: t => insert_by_total x (sort_by_total t)
  end.

Record invoice_stats : Type := mkInvoiceStats {
  stat_total_invoices : nat;
  stat_total_amount : option Q;
  stat_avg_amount : option Q;
  stat_high_risk_count : nat;
  stat_by_vendor : list (string * nat * Q);
  stat_by_risk_level : list (string * nat);
  stat_by_anomaly_type : list (string * nat)
}.

Definition get_invoice_stats (s : store) : invoice_stats :=
  let rows := invoices s in
  mkInvoiceStats
    (List.length rows)
    (match rows with [] => None | _ => Some (sumQ (map r_total_amount rows)) end)
    (match rows with [] => None | _ => Some (meanQ (map r_total_amount rows)) end)
    (List.length (filter (fun r => String.eqb (r_risk_level r) "High") rows))
    (sort_by_total (vendor_groups rows))
    (group_count r_risk_level rows)
    (group_count r_anomaly_type rows).

(** ** [InvoiceSearchEngine._parse_search_term]

    Characters are code points below 256. *)

(** [str.lower()]: ASCII and Latin-1 capitals to small letters. *)
Definition py_lower_char (c : ascii) : ascii :=
  let n := nat_of_ascii c in
  if (Nat.leb 65 n && Nat.leb n 90) || (Nat.leb 192 n && Nat.leb n 222 && negb (Nat.eqb n 215))
  then ascii_of_nat (n + 32) else c.

Fixpoint py_lower (s : string) : string :=
  match s with
  | EmptyString => EmptyString
  | String c t => String (py_lower_char c) (py_lower t)
  end.

(** [str.upper()]: small letters to capitals and [ß] to [SS]; the
    capitals of [µ] and [ÿ] lie above 255, these two are kept (they stay
    non-ASCII, which is all the prefix test below looks at). *)
Definition py_upper_char (c : ascii) : ascii :=
  let n := nat_of_ascii c in
  if (Nat.leb 97 n && Nat.leb n 122) || (Nat.leb 224 n && Nat.leb n 254 && negb (Nat.eqb n 247))
  then ascii_of_nat (n - 32) else c.

Fixpoint py_upper (s : string) : string :=
  match s with
  | EmptyString => EmptyString
  | String c t =>
      if Nat.eqb (nat_of_ascii c) 223 then String "S" (String "S" (py_upper t))
      else String (py_upper_char c) (py_upper t)
  end.

(** [needle in hay] *)
Fixpoint contains (needle hay : string) : bool :=
  String.prefix needle hay ||
  match hay with EmptyString => false | String _ t => contains needle t end.

(** [any(w in s for w in words)] *)
Definition any_in (words : list string) (s : string) : bool :=
  existsb (fun w => contains w s) words.

(** [c.isdigit()]: the ASCII digits and the superscripts two, three and
    one (U+00B2, U+00B3, U+00B9). *)
Definition py_isdigit (c : ascii) : bool :=
  let n := nat_of_ascii c in
  (Nat.leb 48 n && Nat.leb n 57) || Nat.eqb n 178 || Nat.eqb n 179 || Nat.eqb n 185.

(** [''.join(c for c in s if c.isdigit() or c == '.')] *)
Fixpoint keep_digits_dots (s : string) : string :=
  match s with
  | EmptyString => EmptyString
  | String c t =>
      if py_isdigit c || Ascii.eqb c "." then String c (keep_digits_dots t)
      else keep_digits_dots t
  end.

(** [float(s)] on such a string: at least one ASCII digit and at most one
    dot, else [ValueError] ([None]); a superscript digit is refused. *)
Fixpoint float_digits (s : string) (seen_dot : bool) (acc : Z) (scale : positive)
  (nd : nat) : option Q :=
  match s with
  | EmptyString => if Nat.eqb nd 0 then None else Some (Qmake acc scale)
  | String c t =>
      if Ascii.eqb c "." then
        if seen_dot then None else float_digits t true acc scale nd
      else
        match digit c with
        | Some d =>
            float_digits t seen_dot (acc * 10 + d)%Z
              (if seen_dot then (scale * 10)%positive else scale) (S nd)
        | None => None
        end
  end.

Definition py_float_digits (s : string) : option Q := float_digits s false 0 1 0.

Definition vendor_only (v : string) : filter_set :=
  mkFilters (Some v) None None None None None None None.

Definition parse_search_term (search_term : string) : filter_set :=
  let lowered := py_lower search_term in
  if any_in ["vendor"; "supplier"; "company"] lowered then vendor_only search_term
  else if any_in ["INV-"; "DIG-"; "SCAN-"; "DUP-"] (py_upper search_term) then no_filters
  else if contains "$" search_term || any_in ["usd"; "amount"; "total"] lowered then
    match py_float_digits (keep_digits_dots search_term) with
    | Some amount =>
        mkFilters None None None (Some (amount * (9 # 10))) (Some (amount * (11 # 10)))
          None None None
    | None => no_filters
    end
  else if any_in ["jan"; "feb"; "mar"; "apr"; "may"; "jun";
                  "jul"; "aug"; "sep"; "oct"; "nov"; "dec"] lowered then no_filters
  else vendor_only search_term.

(** * Properties *)

(** ** The scoring path never raises *)

Section Scoring.

Variable strptime : string -> option Z.
Variable iforest_outlier : list Q -> Q -> bool.

Lemma scan_similar_ok (d : Z) (rows : list invoice) :
  exists b, scan_similar strptime d rows = Ok b.
Proof.
  induction rows as [|r rest IH]; simpl; [eauto|].
  unfold strptime_r, catch, bind.
  destruct (strptime (get_date r)) as [d'|]; [|exact IH].
  destruct (Z.abs (d' - d) <=? 7)%Z; [eauto|exact IH].
Qed.

Lemma is_duplicate_invoice_ok (inv : invoice) (ds : dataset) :
  exists b, is_duplicate_invoice strptime inv ds = Ok b.
Proof.
  unfold is_duplicate_invoice.
  destruct ds as [rows|]; [|eauto].
  destruct (_ || _); [eauto|].
  destruct (Nat.ltb _ _); [eauto|].
  unfold catch, bind, strptime_r.
  destruct (strptime (get_date inv)) as [d|]; [|eauto].
  destruct (scan_similar_ok d (filter
     (fun r => (String.eqb (Vendor_Name r) (Vendor_Name inv)
                && Qle_bool (Qabs (Total_Amount r - Total_Amount inv))
                            (Total_Amount inv * (1 # 100)))
               && negb (String.eqb (Invoice_ID r) (Invoice_ID inv))) rows))
    as [b Hb].
  rewrite Hb; eauto.
Qed.

Lemma check_business_rules_ok (inv : invoice) (ds : dataset) :
  exists basic, check_business_rules strptime inv ds = Ok basic.
Proof.
  unfold check_business_rules.
  destruct (is_duplicate_invoice_ok inv ds) as [b Hb]; rewrite Hb; simpl; eauto.
Qed.

Lemma check_temporal_anomalies_ok (inv : invoice) :
  exists temp, check_temporal_anomalies strptime inv = Ok temp.
Proof.
  unfold check_temporal_anomalies, catch, bind, strptime_r.
  destruct (strptime (get_date inv)); [destruct (Z.leb _ _)|]; eauto.
Qed.

(** [analyze_invoice] always returns, with the flags of the four detectors
    in order. *)
Lemma analyze_invoice_shape (st : detector_state) (inv : invoice) (ds : dataset) :
  exists basic temp,
    check_business_rules strptime inv ds = Ok basic /\
    check_temporal_anomalies strptime inv = Ok temp /\
    let stat := fst (check_statistical_anomalies iforest_outlier st inv ds) in
    let vend := check_vendor_behavior inv in
    let fl := (basic ++ stat ++ vend ++ temp)%list in
    let score := (List.length basic + List.length stat * 2
                  + List.length vend + List.length temp)%nat in
    analyze_invoice strptime iforest_outlier st inv ds =
      Ok (mkAnalysis fl (calculate_risk_level score (Total_Amount inv))
            (categorize_anomaly fl) score
            (map (fun f => (f, get_anomaly_severity f, calculate_amount_impact f inv)) fl),
          snd (check_statistical_anomalies iforest_outlier st inv ds)).
Proof.
  destruct (check_business_rules_ok inv ds) as [basic Hb].
  destruct (check_temporal_anomalies_ok inv) as [temp Ht].
  exists basic, temp; split; [exact Hb|]; split; [exact Ht|].
  unfold analyze_invoice; rewrite Hb; simpl.
  destruct (check_statistical_anomalies iforest_outlier st inv ds) as [stat st'].
  simpl; rewrite Ht; reflexivity.
Qed.

End Scoring.

(** ** Risk score and risk level *)

(** Spec §4.5: the amount-based bonus, +2 above 10,000, else +1 above
    5,000. *)
Definition spec_amount_bonus (amount : Q) : nat :=
  if Qltb 10000 amount then 2%nat else if Qltb 5000 amount then 1%nat else 0%nat.

Lemma calculate_risk_level_thresholds (score : nat) (amount : Q) :
  let total := (score + spec_amount_bonus amount)%nat in
  (calculate_risk_level score amount = "High" <-> 5 <= total)%nat /\
  (calculate_risk_level score amount = "Medium" <-> 3 <= total < 5)%nat /\
  (calculate_risk_level score amount = "Low" <-> total < 3)%nat.
Proof.
  unfold calculate_risk_level, spec_amount_bonus; cbv zeta.
  assert (Hsc : forall t : nat,
    ((if Nat.leb 5 t then "High" else if Nat.leb 3 t then "Medium" else "Low") = "High"
       <-> 5 <= t)%nat /\
    ((if Nat.leb 5 t then "High" else if Nat.leb 3 t then "Medium" else "Low") = "Medium"
       <-> 3 <= t < 5)%nat /\
    ((if Nat.leb 5 t then "High" else if Nat.leb 3 t then "Medium" else "Low") = "Low"
       <-> t < 3)%nat).
  { intro t; destruct (Nat.leb_spec 5 t), (Nat.leb_spec 3 t);
      repeat split; intros; try lia; try discriminate; try reflexivity. }
  destruct (Qltb 10000 amount), (Qltb 5000 amount);
    rewrite ?Nat.add_0_r; apply Hsc.
Qed.

(** C1 (as amended): [risk_score] is the weighted flag count, one per
    business-rule flag, two per statistical flag, one per vendor flag and
    one per temporal flag, without the amount bonus; [risk_level] is
    "High", "Medium" or "Low" as that score plus the amount bonus (2 above
    10,000, else 1 above 5,000) is at least 5, at least 3 and below 5, or
    below 3. *)
Theorem risk_score_and_level
  (strptime : string -> option Z) (iforest_outlier : list Q -> Q -> bool)
  (st : detector_state) (inv : invoice) (ds : dataset) :
  exists r st' basic temp,
    analyze_invoice strptime iforest_outlier st inv ds = Ok (r, st') /\
    check_business_rules strptime inv ds = Ok basic /\
    check_temporal_anomalies strptime inv = Ok temp /\
    risk_score r =
      (List.length basic
       + 2 * List.length (fst (check_statistical_anomalies iforest_outlier st inv ds))
       + List.length (check_vendor_behavior inv) + List.length temp)%nat /\
    let total := (risk_score r + spec_amount_bonus (Total_Amount inv))%nat in
    (risk_level r = "High" <-> 5 <= total)%nat /\
    (risk_level r = "Medium" <-> 3 <= total < 5)%nat /\
    (risk_level r = "Low" <-> total < 3)%nat.
Proof.
  destruct (analyze_invoice_shape strptime iforest_outlier st inv ds)
    as (basic & temp & Hb & Ht & Ha); cbv zeta in Ha.
  eexists; eexists; exists basic, temp.
  split; [exact Ha|]; split; [exact Hb|]; split; [exact Ht|]; simpl.
  split; [lia|].
  apply calculate_risk_level_thresholds.
Qed.

(** An invoice of 20,001 (not a multiple of 1,000) dated on a Monday, with
    no tax amount and no dataset. *)
Definition inv_20001 : invoice :=
  mkInvoice "INV-1" "Acme" (Some "2024-03-04") 20001 None.

(** C1 (counterexample): no detector flags [inv_20001] and its amount
    bonus is 2, yet the returned [risk_score] is 0, not 2. *)
Lemma risk_score_excludes_amount_bonus :
  exists r st',
    analyze_invoice iso_ordinal no_outlier None inv_20001 None = Ok (r, st') /\
    flags r = [] /\
    spec_amount_bonus (Total_Amount inv_20001) = 2%nat /\
    risk_score r = 0%nat /\
    risk_score r <> (List.length (flags r) + spec_amount_bonus (Total_Amount inv_20001))%nat.
Proof.
  do 2 eexists; split; [vm_compute; reflexivity|].
  vm_compute; repeat split; discriminate.
Qed.

(** ** Vendor behaviour *)

Lemma check_vendor_behavior_nil (inv : invoice) : check_vendor_behavior inv = [].
Proof.
  unfold check_vendor_behavior, get_vendor_statistics.
  destruct (in_strings _ _); reflexivity.
Qed.

Lemma business_rules_no_vendor_flag (strptime : string -> option Z)
  (inv : invoice) (ds : dataset) (basic : list flag) (f : flag) :
  check_business_rules strptime inv ds = Ok basic -> In f basic ->
  f <> VENDOR_AMOUNT_DEVIATION /\ f <> EXCEEDS_VENDOR_HISTORICAL_MAX.
Proof.
  unfold check_business_rules, bind.
  destruct (is_duplicate_invoice strptime inv ds) as [b|e]; [|discriminate].
  intro H; injection H as <-.
  intro Hin; repeat (apply in_app_or in Hin; destruct Hin as [Hin|Hin]);
    repeat match type of Hin with
           | In _ (if ?c then _ else _) => destruct c
           | In _ (match ?o with Some _ => _ | None => _ end) => destruct o
           end;
    simpl in Hin; intuition (subst; discriminate).
Qed.

Lemma statistical_no_vendor_flag (iforest_outlier : list Q -> Q -> bool)
  (st : detector_state) (inv : invoice) (ds : dataset) (f : flag) :
  In f (fst (check_statistical_anomalies iforest_outlier st inv ds)) ->
  f <> VENDOR_AMOUNT_DEVIATION /\ f <> EXCEEDS_VENDOR_HISTORICAL_MAX.
Proof.
  unfold check_statistical_anomalies.
  destruct ds as [rows|]; [|simpl; tauto].
  destruct (Nat.ltb _ _); [simpl; tauto|].
  simpl; intro Hin;
    repeat (apply in_app_or in Hin; destruct Hin as [Hin|Hin]);
    repeat match type of Hin with
           | In _ (if ?c then _ else _) => destruct c
           end;
    simpl in Hin; intuition (subst; discriminate).
Qed.

Lemma temporal_flags (strptime : string -> option Z) (inv : invoice) (temp : list flag) :
  check_temporal_anomalies strptime inv = Ok temp ->
  temp = [] \/ (temp = [WEEKEND_INVOICE] /\
                exists d, strptime (get_date inv) = Some d /\ (5 <= weekday d)%Z).
Proof.
  unfold check_temporal_anomalies, catch, bind, strptime_r.
  destruct (strptime (get_date inv)) as [d|]; [|intro H; injection H; auto].
  case_eq (Z.leb 5 (weekday d)); intros Hw H; injection H as <-; [right|left; reflexivity].
  split; [reflexivity|]; exists d; split; [reflexivity|]; apply Z.leb_le; exact Hw.
Qed.

(** C2 (as amended): the vendor-behaviour detector contributes no flag
    ([_get_vendor_statistics] returns [None]), so no scored invoice carries
    VENDOR_AMOUNT_DEVIATION or EXCEEDS_VENDOR_HISTORICAL_MAX, and scoring
    returns a result. *)
Theorem vendor_flags_never_raised
  (strptime : string -> option Z) (iforest_outlier : list Q -> Q -> bool)
  (st : detector_state) (inv : invoice) (ds : dataset) :
  check_vendor_behavior inv = [] /\
  exists r st',
    analyze_invoice strptime iforest_outlier st inv ds = Ok (r, st') /\
    ~ In VENDOR_AMOUNT_DEVIATION (flags r) /\
    ~ In EXCEEDS_VENDOR_HISTORICAL_MAX (flags r).
Proof.
  split; [apply check_vendor_behavior_nil|].
  destruct (analyze_invoice_shape strptime iforest_outlier st inv ds)
    as (basic & temp & Hb & Ht & Ha); cbv zeta in Ha.
  do 2 eexists; split; [exact Ha|]; simpl.
  rewrite check_vendor_behavior_nil.
  assert (Hall : forall f, In f (basic ++ fst (check_statistical_anomalies iforest_outlier st inv ds)
                                 ++ [] ++ temp)%list ->
                 f <> VENDOR_AMOUNT_DEVIATION /\ f <> EXCEEDS_VENDOR_HISTORICAL_MAX).
  { intros f Hin; apply in_app_or in Hin; destruct Hin as [Hin|Hin].
    - eapply business_rules_no_vendor_flag; eauto.
    - apply in_app_or in Hin; destruct Hin as [Hin|Hin].
      + eapply statistical_no_vendor_flag; eauto.
      + simpl in Hin; destruct (temporal_flags strptime inv temp Ht) as [->|[-> _]];
          simpl in Hin; intuition (subst; discriminate). }
  split; intro Hin; apply Hall in Hin; tauto.
Qed.

(** Spec §4.4: a vendor's historical amounts in the working set. *)
Definition spec_vendor_history (rows : list invoice) (vendor : string) : list Q :=
  map Total_Amount (filter (fun r => String.eqb (Vendor_Name r) vendor) rows).

Definition acme_prior : invoice :=
  mkInvoice "INV-100" "Acme" (Some "2024-01-10") 100 None.

Definition acme_current : invoice :=
  mkInvoice "INV-101" "Acme" (Some "2024-03-04") 1000 None.

(** C2 (counterexample): Acme's history is one invoice of 100; an Acme
    invoice of 1,000 exceeds 3 times the mean and 1.5 times the maximum,
    and neither vendor flag is produced. *)
Lemma vendor_deviation_not_flagged :
  exists r st',
    analyze_invoice iso_ordinal no_outlier None acme_current (Some [acme_prior]) = Ok (r, st') /\
    spec_vendor_history [acme_prior] "Acme" = [100] /\
    Qltb (3 * meanQ [100]) (Total_Amount acme_current) = true /\
    Qltb ((3 # 2) * 100) (Total_Amount acme_current) = true /\
    ~ In VENDOR_AMOUNT_DEVIATION (flags r) /\
    ~ In EXCEEDS_VENDOR_HISTORICAL_MAX (flags r).
Proof.
  do 2 eexists; split; [vm_compute; reflexivity|].
  simpl; repeat split; try reflexivity; intro H; simpl in H; intuition discriminate.
Qed.

(** ** Duplicate resolution *)

Lemma in_if_singleton (f g : flag) (c : bool) :
  In f (if c then [g] else []) <-> c = true /\ g = f.
Proof. destruct c; simpl; intuition discriminate. Qed.

Section Duplicates.

Variable strptime : string -> option Z.

Lemma scan_similar_true (d : Z) (rows : list invoice) (b : bool) :
  scan_similar strptime d rows = Ok b ->
  (b = true <-> exists r, In r rows /\
                  exists d', strptime (get_date r) = Some d' /\ (Z.abs (d' - d) <= 7)%Z).
Proof.
  revert b; induction rows as [|r rest IH]; intros b H; simpl in H.
  - injection H as <-; split; [discriminate|intros (r & [] & _)].
  - unfold strptime_r, catch, bind in H.
    destruct (strptime (get_date r)) as [d'|] eqn:Ed.
    + destruct (Z.abs (d' - d) <=? 7)%Z eqn:Ew.
      * injection H as <-; split; [intros _|reflexivity].
        exists r; split; [left; reflexivity|]; exists d'; split; [exact Ed|].
        apply Z.leb_le; exact Ew.
      * rewrite (IH b H); split.
        -- intros (r' & Hin & Hd); exists r'; split; [right; exact Hin|exact Hd].
        -- intros (r' & [<-|Hin] & d'' & Hd & Hle).
           ++ rewrite Ed in Hd; injection Hd as <-.
              apply Z.leb_le in Hle; congruence.
           ++ exists r'; split; [exact Hin|exists d''; tauto].
    + rewrite (IH b H); split.
      * intros (r' & Hin & Hd); exists r'; split; [right; exact Hin|exact Hd].
      * intros (r' & [<-|Hin] & d'' & Hd & Hle); [congruence|].
        exists r'; split; [exact Hin|exists d''; tauto].
Qed.

End Duplicates.

(** Spec §4.1: exact match on the (vendor_name, invoice_id) pair, or a
    same-vendor invoice with another id, an amount within 1% of the
    candidate's and a date within 7 days, both dates parseable. *)
Definition spec_duplicate (strptime : string -> option Z) (inv : invoice)
  (rows : list invoice) : Prop :=
  (1 < List.length (filter (fun r => String.eqb (Vendor_Name r) (Vendor_Name inv)
                                     && String.eqb (Invoice_ID r) (Invoice_ID inv)) rows))%nat
  \/ exists r, In r rows /\ Vendor_Name r = Vendor_Name inv /\
       Invoice_ID r <> Invoice_ID inv /\
       Qabs (Total_Amount r - Total_Amount inv) <= Total_Amount inv * (1 # 100) /\
       exists d d', strptime (get_date inv) = Some d /\ strptime (get_date r) = Some d' /\
                    (Z.abs (d' - d) <= 7)%Z.

Lemma is_duplicate_invoice_spec (strptime : string -> option Z) (inv : invoice)
  (rows : list invoice) (dup : bool) :
  Vendor_Name inv <> "UNKNOWN_VENDOR" -> Invoice_ID inv <> "NOT_FOUND" ->
  is_duplicate_invoice strptime inv (Some rows) = Ok dup ->
  (dup = true <-> spec_duplicate strptime inv rows).
Proof.
  intros HV HI H; unfold is_duplicate_invoice in H.
  apply String.eqb_neq in HV; apply String.eqb_neq in HI.
  rewrite HV, HI in H; change (false || false) with false in H.
  cbv beta iota in H; unfold spec_duplicate.
  destruct (Nat.ltb 1 _) eqn:Ex.
  - injection H as <-; split; [intros _; left; apply Nat.ltb_lt; exact Ex|reflexivity].
  - apply Nat.ltb_ge in Ex.
    unfold catch, bind, strptime_r in H.
    destruct (strptime (get_date inv)) as [d|] eqn:Ed.
    + destruct (scan_similar strptime d _) as [b|e] eqn:Es;
        [|match type of Es with scan_similar _ _ ?l = _ =>
            destruct (scan_similar_ok strptime d l); congruence end].
      injection H as <-.
      rewrite (scan_similar_true strptime d _ b Es); split.
      * intros (r & Hin & d' & Hd' & Hle); right.
        apply filter_In in Hin; destruct Hin as [Hin Hp].
        apply andb_true_iff in Hp; destruct Hp as [Hp Hid].
        apply andb_true_iff in Hp; destruct Hp as [Hv Ham].
        exists r; split; [exact Hin|].
        split; [apply String.eqb_eq; exact Hv|].
        split; [apply negb_true_iff, String.eqb_neq in Hid; exact Hid|].
        split; [apply Qle_bool_iff; exact Ham|].
        exists d, d'; tauto.
      * intros [Hlt|(r & Hin & Hv & Hid & Ham & d1 & d' & Hd1 & Hd' & Hle)]; [lia|].
        injection Hd1 as <-.
        exists r; split.
        -- apply filter_In; split; [exact Hin|].
           apply andb_true_iff; split; [apply andb_true_iff; split|].
           ++ apply String.eqb_eq; exact Hv.
           ++ apply Qle_bool_iff; exact Ham.
           ++ apply negb_true_iff, String.eqb_neq; exact Hid.
        -- exists d'; tauto.
    + injection H as <-; split; [discriminate|].
      intros [Hlt|(r & _ & _ & _ & _ & d1 & _ & Hd1 & _)]; [lia|congruence].
Qed.

(** ** Which detector raises which flag *)

Definition business_flag (f : flag) : bool :=
  match f with
  | STATISTICAL_OUTLIER | EXTREME_Z_SCORE | IQR_OUTLIER
  | VENDOR_AMOUNT_DEVIATION | EXCEEDS_VENDOR_HISTORICAL_MAX | WEEKEND_INVOICE => false
  | _ => true
  end.

Definition statistical_flag (f : flag) : bool :=
  match f with
  | STATISTICAL_OUTLIER | EXTREME_Z_SCORE | IQR_OUTLIER => true
  | _ => false
  end.

Lemma statistical_flag_kinds (iforest_outlier : list Q -> Q -> bool)
  (st : detector_state) (inv : invoice) (ds : dataset) (f : flag) :
  In f (fst (check_statistical_anomalies iforest_outlier st inv ds)) ->
  statistical_flag f = true.
Proof.
  unfold check_statistical_anomalies.
  destruct ds as [rows|]; [|simpl; tauto].
  destruct (Nat.ltb _ _); [simpl; tauto|].
  simpl; intro Hin; repeat rewrite in_app_iff in Hin;
    rewrite !in_if_singleton in Hin; intuition (subst; reflexivity).
Qed.

Lemma business_flag_kinds (strptime : string -> option Z) (inv : invoice)
  (ds : dataset) (basic : list flag) (f : flag) :
  check_business_rules strptime inv ds = Ok basic -> In f basic ->
  business_flag f = true.
Proof.
  unfold check_business_rules, bind.
  destruct (is_duplicate_invoice strptime inv ds) as [b|e]; [|discriminate].
  intro H; injection H as <-.
  intro Hin; repeat rewrite in_app_iff in Hin;
    repeat match type of Hin with
           | context [if ?c then _ else _] => destruct c
           | context [match ?o with Some _ => _ | None => _ end] => destruct o
           end;
    simpl in Hin; intuition (subst; reflexivity).
Qed.

Lemma flags_by_detector (strptime : string -> option Z)
  (iforest_outlier : list Q -> Q -> bool) (st : detector_state) (inv : invoice)
  (ds : dataset) :
  exists r st' basic temp,
    analyze_invoice strptime iforest_outlier st inv ds = Ok (r, st') /\
    check_business_rules strptime inv ds = Ok basic /\
    check_temporal_anomalies strptime inv = Ok temp /\
    (forall f, In f (flags r) <->
               In f basic \/ In f (fst (check_statistical_anomalies iforest_outlier st inv ds))
               \/ In f temp) /\
    (forall f, business_flag f = true -> (In f (flags r) <-> In f basic)) /\
    (forall f, statistical_flag f = true ->
       (In f (flags r) <-> In f (fst (check_statistical_anomalies iforest_outlier st inv ds)))).
Proof.
  destruct (analyze_invoice_shape strptime iforest_outlier st inv ds)
    as (basic & temp & Hb & Ht & Ha); cbv zeta in Ha.
  do 2 eexists; exists basic, temp.
  split; [exact Ha|]; split; [exact Hb|]; split; [exact Ht|]; simpl.
  rewrite check_vendor_behavior_nil.
  assert (Hf : forall f, In f (basic ++ fst (check_statistical_anomalies iforest_outlier st inv ds)
                                ++ [] ++ temp)%list <->
               In f basic \/ In f (fst (check_statistical_anomalies iforest_outlier st inv ds))
               \/ In f temp).
  { intro f; rewrite !in_app_iff; simpl; tauto. }
  split; [exact Hf|]; split; intros f Hk; rewrite Hf.
  - split; [|tauto]; intros [H|[H|H]]; [exact H| |].
    + apply statistical_flag_kinds in H; destruct f; discriminate.
    + destruct (temporal_flags strptime inv temp Ht) as [->|[-> _]];
        [destruct H|destruct H as [<-|[]]; discriminate].
  - split; [|tauto]; intros [H|[H|H]]; [| exact H |].
    + apply (business_flag_kinds strptime inv ds basic f Hb) in H; destruct f; discriminate.
    + destruct (temporal_flags strptime inv temp Ht) as [->|[-> _]];
        [destruct H|destruct H as [<-|[]]; discriminate].
Qed.

Lemma business_rules_duplicate (strptime : string -> option Z) (inv : invoice)
  (ds : dataset) (basic : list flag) (dup : bool) :
  is_duplicate_invoice strptime inv ds = Ok dup ->
  check_business_rules strptime inv ds = Ok basic ->
  (In POTENTIAL_DUPLICATE basic <-> dup = true).
Proof.
  intros Hd Hb; unfold check_business_rules in Hb; rewrite Hd in Hb; simpl in Hb.
  injection Hb as <-.
  repeat rewrite in_app_iff; rewrite in_if_singleton.
  repeat match goal with
         | |- context [if ?c then _ else _] =>
             match c with dup => fail 1 | _ => destruct c end
         | |- context [match ?o with Some _ => _ | None => _ end] => destruct o
         end;
    simpl; intuition discriminate.
Qed.

Definition dup_a : invoice := mkInvoice "INV-2001" "Acme" (Some "2024-03-01") 12500 None.
Definition dup_b : invoice := mkInvoice "INV-2002" "Acme" (Some "2024-03-04") 12550 None.
Definition dup_b_late : invoice := mkInvoice "INV-2002" "Acme" (Some "2024-03-31") 12550 None.

(** C3: for an invoice whose vendor_name and invoice_id are not sentinels,
    the duplicate check returns true, and POTENTIAL_DUPLICATE is flagged,
    iff more than one record shares its (vendor_name, invoice_id) pair or
    another same-vendor record with a different id has an amount within 1%
    of the candidate's and a parseable date within 7 days of the
    candidate's parseable date.  Two Acme invoices of 12,500 and 12,550
    dated 3 days apart are both duplicates; dated 30 days apart, neither
    is. *)
Theorem duplicate_exact_or_fuzzy
  (strptime : string -> option Z) (iforest_outlier : list Q -> Q -> bool)
  (st : detector_state) (inv : invoice) (rows : list invoice)
  (HV1 : Vendor_Name inv <> "UNKNOWN_VENDOR") (HV2 : Vendor_Name inv <> "NOT_FOUND")
  (HI1 : Invoice_ID inv <> "NOT_FOUND") (HI2 : Invoice_ID inv <> "UNKNOWN") :
  (exists dup r st',
     is_duplicate_invoice strptime inv (Some rows) = Ok dup /\
     analyze_invoice strptime iforest_outlier st inv (Some rows) = Ok (r, st') /\
     (In POTENTIAL_DUPLICATE (flags r) <-> dup = true) /\
     (dup = true <-> spec_duplicate strptime inv rows)) /\
  is_duplicate_invoice iso_ordinal dup_a (Some [dup_a; dup_b]) = Ok true /\
  is_duplicate_invoice iso_ordinal dup_b (Some [dup_a; dup_b]) = Ok true /\
  is_duplicate_invoice iso_ordinal dup_a (Some [dup_a; dup_b_late]) = Ok false /\
  is_duplicate_invoice iso_ordinal dup_b_late (Some [dup_a; dup_b_late]) = Ok false.
Proof.
  split; [|vm_compute; repeat split].
  destruct (is_duplicate_invoice_ok strptime inv (Some rows)) as [dup Hd].
  destruct (flags_by_detector strptime iforest_outlier st inv (Some rows))
    as (r & st' & basic & temp & Ha & Hb & Ht & _ & Hbus & _).
  exists dup, r, st'; split; [exact Hd|]; split; [exact Ha|]; split.
  - rewrite (Hbus POTENTIAL_DUPLICATE eq_refl).
    exact (business_rules_duplicate strptime inv (Some rows) basic dup Hd Hb).
  - exact (is_duplicate_invoice_spec strptime inv rows dup HV1 HI1 Hd).
Qed.

Lemma duplicate_exact_or_fuzzy_witness :
  (exists dup r st',
     is_duplicate_invoice iso_ordinal dup_b (Some [dup_a; dup_b]) = Ok dup /\
     analyze_invoice iso_ordinal no_outlier None dup_b (Some [dup_a; dup_b]) = Ok (r, st') /\
     (In POTENTIAL_DUPLICATE (flags r) <-> dup = true) /\
     (dup = true <-> spec_duplicate iso_ordinal dup_b [dup_a; dup_b])) /\
  is_duplicate_invoice iso_ordinal dup_a (Some [dup_a; dup_b]) = Ok true /\
  is_duplicate_invoice iso_ordinal dup_b (Some [dup_a; dup_b]) = Ok true /\
  is_duplicate_invoice iso_ordinal dup_a (Some [dup_a; dup_b_late]) = Ok false /\
  is_duplicate_invoice iso_ordinal dup_b_late (Some [dup_a; dup_b_late]) = Ok false.
Proof.
  apply (duplicate_exact_or_fuzzy iso_ordinal no_outlier None dup_b [dup_a; dup_b]);
    vm_compute; discriminate.
Defined.

(** ** Tax check *)

Lemma Qltb_lt (x y : Q) : Qltb x y = true <-> x < y.
Proof.
  unfold Qltb; rewrite negb_true_iff; split; intro H.
  - apply Qnot_le_lt; intro Hle; apply Qle_bool_iff in Hle; congruence.
  - destruct (Qle_bool y x) eqn:E; [|reflexivity].
    apply Qle_bool_iff in E; exfalso; exact (Qlt_not_le _ _ H E).
Qed.

Lemma business_rules_tax (strptime : string -> option Z) (inv : invoice)
  (ds : dataset) (basic : list flag) :
  check_business_rules strptime inv ds = Ok basic ->
  (In TAX_CALCULATION_ANOMALY basic <->
   exists t, Tax_Amount inv = Some t /\ 0 < t /\
             1 < Qabs (t - round2 (Total_Amount inv * (1 # 10)))).
Proof.
  unfold check_business_rules, bind.
  destruct (is_duplicate_invoice strptime inv ds) as [b|e]; [|discriminate].
  intro H; apply (f_equal (fun x => match x with Ok l => l | Raise _ => [] end)) in H.
  cbv beta iota zeta in H; subst basic.
  repeat rewrite in_app_iff.
  destruct (Tax_Amount inv) as [t|] eqn:Et.
  - destruct (Qltb 0 t) eqn:Hpos.
    + destruct (Qltb 1 (Qabs (t - round2 (Total_Amount inv * (1 # 10))))) eqn:Hdiff.
      * split; [intros _|intros _; simpl; tauto].
        exists t; split; [reflexivity|]; split; apply Qltb_lt; assumption.
      * split.
        -- repeat match goal with
                  | |- context [if ?c then _ else _] => destruct c
                  end; simpl; intuition discriminate.
        -- intros (t' & Ht' & _ & Hd); injection Ht' as <-.
           apply Qltb_lt in Hd; congruence.
    + split.
      * repeat match goal with
               | |- context [if ?c then _ else _] => destruct c
               end; simpl; intuition discriminate.
      * intros (t' & Ht' & Hp & _); injection Ht' as <-.
        apply Qltb_lt in Hp; congruence.
  - split.
    + repeat match goal with
             | |- context [if ?c then _ else _] => destruct c
             end; simpl; intuition discriminate.
    + intros (t' & Ht' & _); discriminate.
Qed.

(** C4 (as amended): TAX_CALCULATION_ANOMALY is among the flags iff
    tax_amount is present and positive and differs by more than 1.00 from
    total_amount x 0.10 rounded to cents. *)
Theorem tax_anomaly_iff
  (strptime : string -> option Z) (iforest_outlier : list Q -> Q -> bool)
  (st : detector_state) (inv : invoice) (ds : dataset) :
  exists r st',
    analyze_invoice strptime iforest_outlier st inv ds = Ok (r, st') /\
    (In TAX_CALCULATION_ANOMALY (flags r) <->
     exists t, Tax_Amount inv = Some t /\ 0 < t /\
               1 < Qabs (t - round2 (Total_Amount inv * (1 # 10)))).
Proof.
  destruct (flags_by_detector strptime iforest_outlier st inv ds)
    as (r & st' & basic & temp & Ha & Hb & Ht & _ & Hbus & _).
  exists r, st'; split; [exact Ha|].
  rewrite (Hbus TAX_CALCULATION_ANOMALY eq_refl).
  exact (business_rules_tax strptime inv ds basic Hb).
Qed.

Definition inv_tax_zero : invoice :=
  mkInvoice "INV-3001" "Acme" (Some "2024-03-04") 100 (Some 0).

(** C4 (counterexample): an invoice of 100 with a present tax_amount of 0
    differs from 100 x 0.10 by 10, yet TAX_CALCULATION_ANOMALY is not
    raised. *)
Lemma zero_tax_not_flagged :
  exists r st',
    analyze_invoice iso_ordinal no_outlier None inv_tax_zero None = Ok (r, st') /\
    Tax_Amount inv_tax_zero = Some 0 /\
    1 < Qabs (0 - Total_Amount inv_tax_zero * (1 # 10)) /\
    ~ In TAX_CALCULATION_ANOMALY (flags r).
Proof.
  do 2 eexists; split; [vm_compute; reflexivity|].
  split; [reflexivity|]; split; [vm_compute; reflexivity|].
  simpl; intro H; intuition discriminate.
Qed.

(** ** Statistical detector on small datasets *)

(** C5: with no dataset, or one of fewer than 10 records, the statistical
    detector contributes no flag: none of STATISTICAL_OUTLIER,
    EXTREME_Z_SCORE and IQR_OUTLIER is raised, and scoring returns a
    result. *)
Theorem small_dataset_no_statistical_flags
  (strptime : string -> option Z) (iforest_outlier : list Q -> Q -> bool)
  (st : detector_state) (inv : invoice) (ds : dataset)
  (Hsmall : ds = None \/ exists rows, ds = Some rows /\ (List.length rows < 10)%nat) :
  fst (check_statistical_anomalies iforest_outlier st inv ds) = [] /\
  exists r st',
    analyze_invoice strptime iforest_outlier st inv ds = Ok (r, st') /\
    ~ In STATISTICAL_OUTLIER (flags r) /\
    ~ In EXTREME_Z_SCORE (flags r) /\
    ~ In IQR_OUTLIER (flags r).
Proof.
  assert (Hnil : fst (check_statistical_anomalies iforest_outlier st inv ds) = []).
  { destruct Hsmall as [->|(rows & -> & Hlt)]; [reflexivity|].
    unfold check_statistical_anomalies.
    apply Nat.ltb_lt in Hlt; rewrite Hlt; reflexivity. }
  split; [exact Hnil|].
  destruct (flags_by_detector strptime iforest_outlier st inv ds)
    as (r & st' & basic & temp & Ha & _ & _ & _ & _ & Hstat).
  exists r, st'; split; [exact Ha|].
  rewrite (Hstat STATISTICAL_OUTLIER eq_refl), (Hstat EXTREME_Z_SCORE eq_refl),
    (Hstat IQR_OUTLIER eq_refl), Hnil.
  simpl; tauto.
Qed.

Lemma small_dataset_no_statistical_flags_witness :
  fst (check_statistical_anomalies no_outlier None dup_a (Some [dup_a; dup_b])) = [] /\
  exists r st',
    analyze_invoice iso_ordinal no_outlier None dup_a (Some [dup_a; dup_b]) = Ok (r, st') /\
    ~ In STATISTICAL_OUTLIER (flags r) /\
    ~ In EXTREME_Z_SCORE (flags r) /\
    ~ In IQR_OUTLIER (flags r).
Proof.
  apply (small_dataset_no_statistical_flags iso_ordinal no_outlier None dup_a
           (Some [dup_a; dup_b])).
  right; exists [dup_a; dup_b]; split; [reflexivity|simpl; lia].
Defined.

(** ** Malformed input *)

Lemma existsb_flag_names (p : string -> bool) (fl : list flag) :
  existsb p (map flag_name fl) = true <-> exists f, In f fl /\ p (flag_name f) = true.
Proof.
  rewrite existsb_exists; split.
  - intros (n & Hn & Hp); apply in_map_iff in Hn; destruct Hn as (f & <- & Hf); eauto.
  - intros (f & Hf & Hp); exists (flag_name f); split; [apply in_map; exact Hf|exact Hp].
Qed.

Ltac flag_test_iff :=
  unfold in_strings; rewrite existsb_flag_names; split;
  [ intros (f & Hin & Hp); destruct f; simpl in Hp; try discriminate Hp; tauto
  | intros Hin; repeat destruct Hin as [Hin|Hin];
    eexists; (split; [exact Hin|reflexivity]) ].

Lemma test_duplicate (fl : list flag) :
  in_strings "POTENTIAL_DUPLICATE" (map flag_name fl) = true <-> In POTENTIAL_DUPLICATE fl.
Proof. unfold in_strings; rewrite existsb_flag_names; split;
  [intros (f & Hin & Hp); destruct f; simpl in Hp; try discriminate Hp; exact Hin
  |intro Hin; exists POTENTIAL_DUPLICATE; split; [exact Hin|reflexivity]]. Qed.

Lemma test_extreme (fl : list flag) :
  existsb (String.prefix "EXTREME_AMOUNT") (map flag_name fl) = true <->
  In EXTREME_AMOUNT_HIGH fl \/ In EXTREME_AMOUNT_LOW fl.
Proof. flag_test_iff. Qed.

Lemma test_statistical (fl : list flag) :
  existsb (fun n => in_strings n ["STATISTICAL_OUTLIER"; "EXTREME_Z_SCORE"; "IQR_OUTLIER"])
    (map flag_name fl) = true <->
  In STATISTICAL_OUTLIER fl \/ In EXTREME_Z_SCORE fl \/ In IQR_OUTLIER fl.
Proof. flag_test_iff. Qed.

Lemma test_vendor (fl : list flag) :
  existsb (String.prefix "VENDOR_") (map flag_name fl) = true <->
  In VENDOR_AMOUNT_DEVIATION fl.
Proof. flag_test_iff. Qed.

Lemma test_data_quality (fl : list flag) :
  existsb (fun n => in_strings n ["MISSING_VENDOR_INFO"; "MISSING_INVOICE_ID"])
    (map flag_name fl) = true <->
  In MISSING_VENDOR_INFO fl \/ In MISSING_INVOICE_ID fl.
Proof. flag_test_iff. Qed.

Lemma categorize_data_quality (fl : list flag) :
  categorize_anomaly fl = "Data Quality Issue" <->
  (In MISSING_VENDOR_INFO fl \/ In MISSING_INVOICE_ID fl) /\
  ~ In POTENTIAL_DUPLICATE fl /\ ~ In EXTREME_AMOUNT_HIGH fl /\ ~ In EXTREME_AMOUNT_LOW fl /\
  ~ In STATISTICAL_OUTLIER fl /\ ~ In EXTREME_Z_SCORE fl /\ ~ In IQR_OUTLIER fl /\
  ~ In VENDOR_AMOUNT_DEVIATION fl.
Proof.
  unfold categorize_anomaly.
  destruct (in_strings "POTENTIAL_DUPLICATE" _) eqn:E1.
  { apply test_duplicate in E1; split; [discriminate|tauto]. }
  destruct (existsb (String.prefix "EXTREME_AMOUNT") _) eqn:E2.
  { apply test_extreme in E2; split; [discriminate|tauto]. }
  destruct (existsb (fun n => in_strings n ["STATISTICAL_OUTLIER"; "EXTREME_Z_SCORE"; "IQR_OUTLIER"]) _) eqn:E3.
  { apply test_statistical in E3; split; [discriminate|tauto]. }
  destruct (existsb (String.prefix "VENDOR_") _) eqn:E4.
  { apply test_vendor in E4; split; [discriminate|tauto]. }
  assert (N1 : ~ In POTENTIAL_DUPLICATE fl) by (rewrite <- test_duplicate; congruence).
  assert (N2 : ~ (In EXTREME_AMOUNT_HIGH fl \/ In EXTREME_AMOUNT_LOW fl))
    by (rewrite <- test_extreme; congruence).
  assert (N3 : ~ (In STATISTICAL_OUTLIER fl \/ In EXTREME_Z_SCORE fl \/ In IQR_OUTLIER fl))
    by (rewrite <- test_statistical; congruence).
  assert (N4 : ~ In VENDOR_AMOUNT_DEVIATION fl) by (rewrite <- test_vendor; congruence).
  destruct (existsb (fun n => in_strings n ["MISSING_VENDOR_INFO"; "MISSING_INVOICE_ID"]) _) eqn:E5.
  - apply test_data_quality in E5; split; [intros _; tauto|reflexivity].
  - split; [discriminate|]; intros [H _]; apply test_data_quality in H; congruence.
Qed.

Lemma business_rules_missing (strptime : string -> option Z) (inv : invoice)
  (ds : dataset) (basic : list flag) :
  check_business_rules strptime inv ds = Ok basic ->
  (In MISSING_VENDOR_INFO basic <->
     in_strings (Vendor_Name inv) ["UNKNOWN_VENDOR"; "NOT_FOUND"] = true) /\
  (In MISSING_INVOICE_ID basic <->
     in_strings (Invoice_ID inv) ["NOT_FOUND"; "UNKNOWN"] = true).
Proof.
  unfold check_business_rules, bind.
  destruct (is_duplicate_invoice strptime inv ds) as [b|e]; [|discriminate].
  intro H; apply (f_equal (fun x => match x with Ok l => l | Raise _ => [] end)) in H.
  cbv beta iota zeta in H; subst basic.
  repeat rewrite in_app_iff.
  destruct (in_strings (Vendor_Name inv) _) eqn:Ev, (in_strings (Invoice_ID inv) _) eqn:Ei;
    repeat match goal with
           | |- context [if ?c then _ else _] =>
               match c with true => fail 1 | false => fail 1 | _ => destruct c end
           | |- context [match ?o with Some _ => _ | None => _ end] => destruct o
           end;
    simpl; intuition discriminate.
Qed.

Lemma is_duplicate_no_date (strptime : string -> option Z) (inv : invoice)
  (rows : list invoice) :
  strptime (get_date inv) = None ->
  is_duplicate_invoice strptime inv (Some rows) =
  Ok (negb (String.eqb (Vendor_Name inv) "UNKNOWN_VENDOR"
            || String.eqb (Invoice_ID inv) "NOT_FOUND")
      && Nat.ltb 1 (List.length
           (filter (fun r => String.eqb (Vendor_Name r) (Vendor_Name inv)
                             && String.eqb (Invoice_ID r) (Invoice_ID inv)) rows))).
Proof.
  intro Hd; unfold is_duplicate_invoice.
  destruct (_ || _); [reflexivity|].
  destruct (Nat.ltb _ _); [reflexivity|].
  unfold catch, bind, strptime_r; rewrite Hd; reflexivity.
Qed.

(** C8 (as amended): [analyze_invoice] returns a result for every invoice.
    An invoice_date that does not parse raises no WEEKEND_INVOICE and
    leaves only the exact (vendor_name, invoice_id) match to the duplicate
    check; a sentinel vendor_name or invoice_id raises
    MISSING_VENDOR_INFO or MISSING_INVOICE_ID; the category is
    "Data Quality Issue" exactly when one of these is raised and no
    duplicate, extreme-amount, statistical or VENDOR_ flag is. *)
Theorem malformed_input_degrades
  (strptime : string -> option Z) (iforest_outlier : list Q -> Q -> bool)
  (st : detector_state) (inv : invoice) (ds : dataset) :
  exists r st',
    analyze_invoice strptime iforest_outlier st inv ds = Ok (r, st') /\
    (strptime (get_date inv) = None -> ~ In WEEKEND_INVOICE (flags r)) /\
    (strptime (get_date inv) = None ->
     forall rows, ds = Some rows ->
       (In POTENTIAL_DUPLICATE (flags r) <->
        Vendor_Name inv <> "UNKNOWN_VENDOR" /\ Invoice_ID inv <> "NOT_FOUND" /\
        (1 < List.length
               (filter (fun r => String.eqb (Vendor_Name r) (Vendor_Name inv)
                                 && String.eqb (Invoice_ID r) (Invoice_ID inv)) rows))%nat)) /\
    (in_strings (Vendor_Name inv) ["UNKNOWN_VENDOR"; "NOT_FOUND"] = true ->
     In MISSING_VENDOR_INFO (flags r)) /\
    (in_strings (Invoice_ID inv) ["NOT_FOUND"; "UNKNOWN"] = true ->
     In MISSING_INVOICE_ID (flags r)) /\
    (anomaly_type r = "Data Quality Issue" <->
     (In MISSING_VENDOR_INFO (flags r) \/ In MISSING_INVOICE_ID (flags r)) /\
     ~ In POTENTIAL_DUPLICATE (flags r) /\ ~ In EXTREME_AMOUNT_HIGH (flags r) /\
     ~ In EXTREME_AMOUNT_LOW (flags r) /\ ~ In STATISTICAL_OUTLIER (flags r) /\
     ~ In EXTREME_Z_SCORE (flags r) /\ ~ In IQR_OUTLIER (flags r) /\
     ~ In VENDOR_AMOUNT_DEVIATION (flags r)).
Proof.
  destruct (flags_by_detector strptime iforest_outlier st inv ds)
    as (r & st' & basic & temp & Ha & Hb & Ht & Hall & Hbus & _).
  exists r, st'; split; [exact Ha|].
  destruct (business_rules_missing strptime inv ds basic Hb) as [Hmv Hmi].
  split; [|split; [|split; [|split]]].
  - intros Hd Hin; apply Hall in Hin; destruct Hin as [H|[H|H]].
    + apply (business_flag_kinds strptime inv ds basic _ Hb) in H; discriminate.
    + apply statistical_flag_kinds in H; discriminate.
    + destruct (temporal_flags strptime inv temp Ht) as [->|[-> (d & Hd' & _)]];
        [exact H|congruence].
  - intros Hd rows ->.
    rewrite (Hbus POTENTIAL_DUPLICATE eq_refl).
    rewrite (business_rules_duplicate strptime inv (Some rows) basic _
               (is_duplicate_no_date strptime inv rows Hd) Hb).
    rewrite andb_true_iff, negb_true_iff, orb_false_iff, !String.eqb_neq, Nat.ltb_lt.
    tauto.
  - intro H; rewrite (Hbus MISSING_VENDOR_INFO eq_refl); apply Hmv; exact H.
  - intro H; rewrite (Hbus MISSING_INVOICE_ID eq_refl); apply Hmi; exact H.
  - destruct (analyze_invoice_shape strptime iforest_outlier st inv ds)
      as (basic' & temp' & _ & _ & Ha'); cbv zeta in Ha'.
    rewrite Ha in Ha'; injection Ha' as Hr _.
    assert (E : anomaly_type r = categorize_anomaly (flags r)) by (rewrite Hr; reflexivity).
    rewrite E; apply categorize_data_quality.
Qed.

Definition inv_unknown_vendor_low : invoice :=
  mkInvoice "INV-4001" "UNKNOWN_VENDOR" None 5 None.

(** C8 (counterexample): an invoice with the sentinel vendor_name, no
    invoice_date and an amount of 5 is scored without fault and carries
    MISSING_VENDOR_INFO, but its category is "Extreme Amount", not
    "Data Quality Issue". *)
Lemma sentinel_vendor_extreme_category :
  exists r st',
    analyze_invoice iso_ordinal no_outlier None inv_unknown_vendor_low None = Ok (r, st') /\
    In MISSING_VENDOR_INFO (flags r) /\
    anomaly_type r = "Extreme Amount" /\
    anomaly_type r <> "Data Quality Issue".
Proof.
  do 2 eexists; split; [vm_compute; reflexivity|].
  simpl; split; [tauto|]; split; [reflexivity|discriminate].
Qed.

(** ** The store: one row per invoice_id, append-only side tables *)

Definition invoice_ids (s : store) : list string := map r_invoice_id (invoices s).

Definition is_prefix {A} (l1 l2 : list A) : Prop := exists t, l2 = (l1 ++ t)%list.

Lemma replace_row_nodup (l : list inv_row) (row : inv_row) :
  NoDup (map r_invoice_id l) ->
  NoDup (map r_invoice_id
           (filter (fun r => negb (String.eqb (r_invoice_id r) (r_invoice_id row))) l
            ++ [row])%list).
Proof.
  induction l as [|x l IH]; intro Hnd; simpl; [constructor; [intros []|constructor]|].
  inversion Hnd as [|? ? Hx Hl]; subst.
  destruct (String.eqb (r_invoice_id x) (r_invoice_id row)) eqn:E; simpl; [apply IH; exact Hl|].
  constructor; [|apply IH; exact Hl].
  rewrite map_app, in_app_iff; simpl; intros [Hin|[Heq|[]]].
  - apply in_map_iff in Hin; destruct Hin as (y & Hy & Hin).
    apply filter_In in Hin; destruct Hin as [Hin _].
    apply Hx; rewrite <- Hy; apply in_map; exact Hin.
  - apply String.eqb_neq in E; congruence.
Qed.

Lemma replace_row_length (l : list inv_row) (iid : string) :
  NoDup (map r_invoice_id l) -> In iid (map r_invoice_id l) ->
  (List.length (filter (fun r => negb (String.eqb (r_invoice_id r) iid)) l) + 1
   = List.length l)%nat.
Proof.
  induction l as [|x l IH]; intros Hnd Hin; [destruct Hin|].
  inversion Hnd as [|? ? Hx Hl]; subst; simpl in Hin |- *.
  destruct (String.eqb (r_invoice_id x) iid) eqn:E; simpl.
  - apply String.eqb_eq in E; subst iid.
    assert (Hall : filter (fun r => negb (String.eqb (r_invoice_id r) (r_invoice_id x))) l = l).
    { apply forallb_filter_id, forallb_forall; intros y Hy.
      apply negb_true_iff, String.eqb_neq; intro Heq; apply Hx; rewrite <- Heq.
      apply in_map; exact Hy. }
    rewrite Hall; lia.
  - destruct Hin as [Heq|Hin]; [apply String.eqb_neq in E; contradiction|].
    rewrite <- (IH Hl Hin); lia.
Qed.

Lemma replace_row_single (l : list inv_row) (row : inv_row) :
  filter (fun r => String.eqb (r_invoice_id r) (r_invoice_id row))
    (filter (fun r => negb (String.eqb (r_invoice_id r) (r_invoice_id row))) l ++ [row])%list
  = [row].
Proof.
  rewrite filter_app; simpl; rewrite String.eqb_refl.
  replace (filter _ (filter _ l)) with (@nil inv_row); [reflexivity|].
  induction l as [|x l IH]; simpl; [reflexivity|].
  destruct (String.eqb (r_invoice_id x) (r_invoice_id row)) eqn:E; simpl; [exact IH|].
  rewrite E; exact IH.
Qed.

Lemma step_keeps_unique (s : store) (op : store_op) :
  NoDup (invoice_ids s) -> NoDup (invoice_ids (snd (step s op))).
Proof.
  unfold invoice_ids; intro Hnd; destruct op as [now d|iid at_ desc sev imp|now iid st notes];
    simpl.
  - unfold save_invoice.
    destruct (d_invoice_id d), (d_vendor_name d), (d_invoice_date d), (d_total_amount d);
      simpl; try exact Hnd.
    apply (replace_row_nodup (invoices s) (mkInvRow _ _ _ _ _ _ _ _ _ _ _ _ _ _ _) Hnd).
  - unfold save_anomaly; destruct iid, at_; exact Hnd.
  - unfold update_invoice_status; destruct iid as [iid|]; [|exact Hnd]; simpl.
    rewrite map_map.
    erewrite map_ext; [exact Hnd|].
    intro r; destruct (String.eqb (r_invoice_id r) iid); reflexivity.
Qed.

Lemma step_appends_only (s : store) (op : store_op) :
  is_prefix (anomalies s) (anomalies (snd (step s op))) /\
  is_prefix (processing_log s) (processing_log (snd (step s op))).
Proof.
  destruct op as [now d|iid at_ desc sev imp|now iid st notes]; simpl.
  - unfold save_invoice.
    destruct (d_invoice_id d), (d_vendor_name d), (d_invoice_date d), (d_total_amount d);
      simpl; split; try (exists []; rewrite app_nil_r; reflexivity); eexists; reflexivity.
  - unfold save_anomaly; destruct iid, at_; simpl; split;
      try (exists []; rewrite app_nil_r; reflexivity); eexists; reflexivity.
  - unfold update_invoice_status; destruct iid; simpl; split;
      try (exists []; rewrite app_nil_r; reflexivity); eexists; reflexivity.
Qed.

Lemma run_ops_unique (ops : list store_op) (s : store) :
  NoDup (invoice_ids s) -> NoDup (invoice_ids (run_ops s ops)).
Proof.
  revert s; induction ops as [|op ops IH]; intros s Hnd; simpl; [exact Hnd|].
  apply IH, step_keeps_unique, Hnd.
Qed.

(** C9: after any sequence of store operations from a fresh database the
    invoices table holds one row per invoice_id; a successful save of an
    invoice_id already stored replaces its row (the table keeps its size
    and holds exactly one row for that id, carrying the new data); no
    operation removes or changes a row of the anomalies or processing_log
    tables, which only grow at the end. *)
Theorem save_invoice_one_row_per_id (ops : list store_op) :
  let s := run_ops store_init ops in
  NoDup (invoice_ids s) /\
  (forall now d iid v,
     d_invoice_id d = Some iid -> d_vendor_name d = Some v ->
     In iid (invoice_ids s) ->
     fst (save_invoice now s d) = true ->
     List.length (invoices (snd (save_invoice now s d))) = List.length (invoices s) /\
     exists row,
       filter (fun r => String.eqb (r_invoice_id r) iid)
              (invoices (snd (save_invoice now s d))) = [row] /\
       r_vendor_name row = v) /\
  (forall op,
     is_prefix (anomalies s) (anomalies (snd (step s op))) /\
     is_prefix (processing_log s) (processing_log (snd (step s op)))).
Proof.
  cbv zeta.
  assert (Hnd : NoDup (invoice_ids (run_ops store_init ops)))
    by (apply run_ops_unique; constructor).
  split; [exact Hnd|]; split; [|intro op; apply step_appends_only].
  intros now d iid v Hid Hv Hin Hok.
  unfold save_invoice in Hok |- *; rewrite Hid, Hv in Hok |- *.
  destruct (d_invoice_date d) as [date|], (d_total_amount d) as [total|];
    simpl in Hok; try discriminate.
  simpl; split.
  - rewrite length_app; simpl.
    apply (replace_row_length _ iid Hnd Hin).
  - eexists; split.
    + exact (replace_row_single (invoices (run_ops store_init ops))
               (mkInvRow (S (seq_invoices (run_ops store_init ops))) iid v date
                  (d_due_date d) total (get_or (d_tax_amount d) 0)
                  (get_or (d_item_description d) "") (get_or (d_payment_terms d) "")
                  (get_or (d_department d) "Unknown") (get_or (d_source_type d) "Digital")
                  (Some (get_or (d_status d) "Pending")) (get_or (d_risk_level d) "Low")
                  (get_or (d_anomaly_type d) "No Anomaly") now)).
    + reflexivity.
Qed.

(** C10: [update_invoice_status] on an invoice_id with no row returns
    [True], leaves the invoices and anomalies tables as they were, and
    appends a STATUS_UPDATE entry for that id to the processing log. *)
Theorem update_status_missing_invoice (now : nat) (s : store) (iid : string)
  (status notes : option string)
  (Habsent : ~ In iid (invoice_ids s)) :
  exists s',
    update_invoice_status now s (Some iid) status notes = (true, s') /\
    invoices s' = invoices s /\
    anomalies s' = anomalies s /\
    exists entry,
      processing_log s' = (processing_log s ++ [entry])%list /\
      l_invoice_id entry = iid /\ l_action entry = "STATUS_UPDATE".
Proof.
  eexists; split; [reflexivity|]; simpl.
  split; [|split; [reflexivity|eexists; split; [reflexivity|split; reflexivity]]].
  unfold invoice_ids in Habsent.
  induction (invoices s) as [|r l IH]; simpl; [reflexivity|].
  simpl in Habsent.
  destruct (String.eqb (r_invoice_id r) iid) eqn:E.
  - apply String.eqb_eq in E; tauto.
  - f_equal; apply IH; tauto.
Qed.

Lemma update_status_missing_invoice_witness :
  exists s',
    update_invoice_status 1 store_init (Some "INV-404") (Some "Approved") None = (true, s') /\
    invoices s' = invoices store_init /\
    anomalies s' = anomalies store_init /\
    exists entry,
      processing_log s' = (processing_log store_init ++ [entry])%list /\
      l_invoice_id entry = "INV-404" /\ l_action entry = "STATUS_UPDATE".
Proof.
  apply (update_status_missing_invoice 1 store_init "INV-404" (Some "Approved") None).
  simpl; tauto.
Defined.

(** ** Failed writes and orphan anomaly rows *)

Lemma failed_writes_leave_store (now : nat) (s : store) (d : invoice_data)
  (iid at_ desc sev : option string) (imp : Q) :
  (fst (save_invoice now s d) = false -> snd (save_invoice now s d) = s) /\
  (fst (save_anomaly s iid at_ desc sev imp) = false ->
   snd (save_anomaly s iid at_ desc sev imp) = s).
Proof.
  split; [unfold save_invoice|unfold save_anomaly].
  - destruct (d_invoice_id d), (d_vendor_name d), (d_invoice_date d), (d_total_amount d);
      simpl; (discriminate || reflexivity).
  - destruct iid, at_; simpl; (discriminate || reflexivity).
Qed.

(** The dict [main.py] builds for an invoice whose date is missing. *)
Definition d_without_date : invoice_data :=
  mkInvoiceData (Some "INV-404") (Some "Acme") None None (Some 75000) None
    None None None None None (Some "High") (Some "Extreme Amount").

(** C7 (code bug): on a fresh database, [save_invoice] of a record with no
    invoice_date fails and leaves the store as it was, but the
    [save_anomaly] call that follows it succeeds and stores an anomaly row
    whose invoice_id has no row in the invoices table. *)
Theorem orphan_anomaly_row :
  save_invoice 0 store_init d_without_date = (false, store_init) /\
  exists s',
    save_anomaly store_init (Some "INV-404") (Some "EXTREME_AMOUNT_HIGH")
      (Some "Extremely high amount: $75,000.00") (Some "High") 7500 = (true, s') /\
    exists a, In a (anomalies s') /\ ~ In (a_invoice_id a) (invoice_ids s').
Proof.
  split; [reflexivity|].
  eexists; split; [reflexivity|].
  eexists; split; [simpl; left; reflexivity|simpl; tauto].
Qed.

(** ** Search *)

Lemma insert_row_in (x a : inv_row) (l : list inv_row) :
  In x (insert_row a l) <-> a = x \/ In x l.
Proof.
  induction l as [|y l IH]; simpl; [tauto|].
  destruct (row_before a y); simpl; [tauto|rewrite IH; tauto].
Qed.

Lemma insert_row_length (a : inv_row) (l : list inv_row) :
  List.length (insert_row a l) = S (List.length l).
Proof.
  induction l as [|y l IH]; simpl; [reflexivity|].
  destruct (row_before a y); simpl; [reflexivity|rewrite IH; reflexivity].
Qed.

Lemma limit_offset_in (x : inv_row) (limit offset : Z) (l : list inv_row) :
  In x (limit_offset limit offset l) -> In x l.
Proof.
  unfold limit_offset; intro H.
  assert (Hs : In x (skipn (Z.to_nat offset) l)).
  { destruct (Z.ltb limit 0); [exact H|].
    rewrite <- (firstn_skipn (Z.to_nat limit) (skipn (Z.to_nat offset) l)).
    apply in_or_app; left; exact H. }
  rewrite <- (firstn_skipn (Z.to_nat offset) l); apply in_or_app; right; exact Hs.
Qed.

Lemma order_rows_in (x : inv_row) (l : list inv_row) : In x (order_rows l) <-> In x l.
Proof.
  induction l as [|y l IH]; simpl; [tauto|rewrite insert_row_in, IH; tauto].
Qed.

Lemma order_rows_length (l : list inv_row) : List.length (order_rows l) = List.length l.
Proof.
  induction l as [|y l IH]; simpl; [reflexivity|rewrite insert_row_length, IH; reflexivity].
Qed.

(** For a page [>= 1] and a page size [>= 1]: the rows returned are stored
    rows that satisfy the WHERE clause the code builds, [total_count] is
    the number of such rows, [total_pages] is its ceiling division by the
    page size, and a page past the last one is empty. *)
Lemma search_invoices_paging (s : store) (filters : option filter_set) (page per_page : Z)
  (Hpage : (1 <= page)%Z) (Hper : (1 <= per_page)%Z) :
  let res := search_invoices s filters page per_page in
  let n := Z.of_nat (List.length (filter (where_clause filters) (invoices s))) in
  (forall r, In r (sr_invoices res) -> In r (invoices s) /\ where_clause filters r = true) /\
  sr_total_count res = n /\
  (n <= per_page * sr_total_pages res)%Z /\
  (per_page * (sr_total_pages res - 1) < n \/ (n = 0 /\ sr_total_pages res = 0))%Z /\
  ((sr_total_pages res < page)%Z -> sr_invoices res = []).
Proof.
  cbv zeta; unfold search_invoices; simpl.
  rewrite order_rows_length.
  set (m := List.length (filter (where_clause filters) (invoices s))).
  set (q := ((Z.of_nat m + per_page - 1) / per_page)%Z).
  pose proof (Z.div_mod (Z.of_nat m + per_page - 1) per_page ltac:(lia)) as Hdm.
  pose proof (Z.mod_pos_bound (Z.of_nat m + per_page - 1) per_page ltac:(lia)) as Hb.
  fold q in Hdm.
  set (rem := ((Z.of_nat m + per_page - 1) mod per_page)%Z) in *.
  split; [|split; [reflexivity|split; [|split]]].
  - intros r Hr; apply limit_offset_in in Hr.
    apply order_rows_in, filter_In in Hr; exact Hr.
  - nia.
  - destruct (Z.eq_dec (Z.of_nat m) 0) as [H0|H0]; [right|left]; nia.
  - intro Hlt; unfold limit_offset.
    rewrite skipn_all2; [destruct (Z.ltb per_page 0); [reflexivity|apply firstn_nil]|].
    rewrite order_rows_length; fold m; nia.
Qed.

Definition d_amount_500 : invoice_data :=
  mkInvoiceData (Some "INV-5001") (Some "Acme") (Some "2024-03-04") None (Some 500) (Some 50)
    None None None None None (Some "Low") (Some "No Anomaly").

Definition store_amount_500 : store := snd (save_invoice 0 store_init d_amount_500).

Definition filters_max_zero : filter_set :=
  mkFilters None None None None (Some 0) None None None.

(** C6 (code bug): with [max_amount = 0] the truthiness test
    [if filters.get('max_amount'):] drops the filter, so searching a store
    holding one invoice of 500 returns that invoice although
    500 > max_amount. *)
Theorem search_zero_max_amount_ignored :
  sr_total_count (search_invoices store_amount_500 (Some filters_max_zero) 1 20) = 1%Z /\
  exists r,
    In r (sr_invoices (search_invoices store_amount_500 (Some filters_max_zero) 1 20)) /\
    f_max_amount filters_max_zero = Some 0 /\
    r_total_amount r == 500 /\
    ~ (r_total_amount r <= 0).
Proof.
  split; [vm_compute; reflexivity|].
  eexists; split; [vm_compute; left; reflexivity|].
  split; [reflexivity|]; split; [reflexivity|].
  vm_compute; intro H; apply H; reflexivity.
Qed.

(** * Further properties of the detector *)

Lemma Qltb_ge (x y : Q) : Qltb x y = false <-> y <= x.
Proof. unfold Qltb; rewrite negb_false_iff; apply Qle_bool_iff. Qed.


(** The amount rules of [_check_business_rules], flag by flag. *)
Lemma business_rules_amount (strptime : string -> option Z) (inv : invoice)
  (ds : dataset) (basic : list flag) :
  check_business_rules strptime inv ds = Ok basic ->
  (In EXTREME_AMOUNT_HIGH basic <-> Qltb 50000 (Total_Amount inv) = true) /\
  (In EXTREME_AMOUNT_LOW basic <->
     Qltb 50000 (Total_Amount inv) = false /\ Qltb (Total_Amount inv) 10 = true) /\
  (In ROUND_AMOUNT_SUSPICIOUS basic <->
     Qmod_zero (Total_Amount inv) 1000 && Qltb 5000 (Total_Amount inv) = true).
Proof.
  unfold check_business_rules, bind.
  destruct (is_duplicate_invoice strptime inv ds) as [b|e]; [|discriminate].
  intro H; apply (f_equal (fun x => match x with Ok l => l | Raise _ => [] end)) in H.
  cbv beta iota zeta in H; subst basic.
  repeat rewrite in_app_iff.
  destruct (Qltb 50000 (Total_Amount inv)) eqn:E1, (Qltb (Total_Amount inv) 10) eqn:E2,
    (Qmod_zero (Total_Amount inv) 1000 && Qltb 5000 (Total_Amount inv)) eqn:E3;
    repeat match goal with
           | |- context [if ?c then _ else _] =>
               match c with true => fail 1 | false => fail 1 | _ => destruct c end
           | |- context [match ?o with Some _ => _ | None => _ end] => destruct o
           end;
    simpl; intuition discriminate.
Qed.

(** EXTREME_AMOUNT_HIGH is raised exactly above 50,000 and
    EXTREME_AMOUNT_LOW exactly below 10; the two are never raised together
    ([if]/[elif]). *)
Theorem extreme_amount_flags
  (strptime : string -> option Z) (iforest_outlier : list Q -> Q -> bool)
  (st : detector_state) (inv : invoice) (ds : dataset) :
  exists r st',
    analyze_invoice strptime iforest_outlier st inv ds = Ok (r, st') /\
    (In EXTREME_AMOUNT_HIGH (flags r) <-> 50000 < Total_Amount inv) /\
    (In EXTREME_AMOUNT_LOW (flags r) <-> Total_Amount inv < 10) /\
    ~ (In EXTREME_AMOUNT_HIGH (flags r) /\ In EXTREME_AMOUNT_LOW (flags r)).
Proof.
  destruct (flags_by_detector strptime iforest_outlier st inv ds)
    as (r & st' & basic & temp & Ha & Hb & _ & _ & Hbus & _).
  exists r, st'; split; [exact Ha|].
  rewrite (Hbus EXTREME_AMOUNT_HIGH eq_refl), (Hbus EXTREME_AMOUNT_LOW eq_refl).
  destruct (business_rules_amount strptime inv ds basic Hb) as (Hh & Hl & _).
  rewrite Hh, Hl, Qltb_lt, Qltb_ge, Qltb_lt.
  split; [reflexivity|]; split; [|lra].
  split; [tauto|]; intro H; split; [lra|exact H].
Qed.


Lemma temporal_weekend (strptime : string -> option Z) (inv : invoice) (temp : list flag) :
  check_temporal_anomalies strptime inv = Ok temp ->
  (In WEEKEND_INVOICE temp <->
   exists d, strptime (get_date inv) = Some d /\ (5 <= weekday d)%Z).
Proof.
  unfold check_temporal_anomalies, catch, bind, strptime_r.
  destruct (strptime (get_date inv)) as [d|].
  - case_eq (Z.leb 5 (weekday d)); intros Hw H; injection H as <-; simpl.
    + apply Z.leb_le in Hw; split; [intros _; exists d; tauto|tauto].
    + apply Z.leb_gt in Hw; split; [tauto|].
      intros (d' & Hd & Hle); injection Hd as <-; lia.
  - intro H; injection H as <-; simpl; split; [tauto|].
    intros (d & Hd & _); discriminate.
Qed.

(** WEEKEND_INVOICE is raised exactly when the invoice_date parses and
    falls on a Saturday or a Sunday ([weekday() >= 5]). *)
Theorem weekend_flag
  (strptime : string -> option Z) (iforest_outlier : list Q -> Q -> bool)
  (st : detector_state) (inv : invoice) (ds : dataset) :
  exists r st',
    analyze_invoice strptime iforest_outlier st inv ds = Ok (r, st') /\
    (In WEEKEND_INVOICE (flags r) <->
     exists d, strptime (get_date inv) = Some d /\ (5 <= weekday d)%Z).
Proof.
  destruct (flags_by_detector strptime iforest_outlier st inv ds)
    as (r & st' & basic & temp & Ha & Hb & Ht & Hall & _ & _).
  exists r, st'; split; [exact Ha|].
  rewrite Hall, <- (temporal_weekend strptime inv temp Ht).
  split; [|tauto]; intros [H|[H|H]]; [| |exact H].
  - apply (business_flag_kinds strptime inv ds basic _ Hb) in H; discriminate.
  - apply statistical_flag_kinds in H; discriminate.
Qed.

Lemma statistical_outlier_model (iforest_outlier : list Q -> Q -> bool)
  (st : detector_state) (inv : invoice) (rows : list invoice) :
  (10 <= List.length rows)%nat ->
  (In STATISTICAL_OUTLIER (fst (check_statistical_anomalies iforest_outlier st inv (Some rows)))
   <-> iforest_outlier (match st with Some m => m | None => map Total_Amount rows end)
                       (Total_Amount inv) = true) /\
  snd (check_statistical_anomalies iforest_outlier st inv (Some rows)) =
    Some (match st with Some m => m | None => map Total_Amount rows end).
Proof.
  intro Hn; unfold check_statistical_anomalies.
  assert (E : Nat.ltb (List.length rows) 10 = false) by (apply Nat.ltb_ge; lia).
  rewrite E; cbv beta iota zeta; unfold fst, snd.
  split; [|reflexivity].
  rewrite !in_app_iff, !in_if_singleton; intuition discriminate.
Qed.

(** [self.amount_model] is fitted once: the first call with a dataset of
    at least 10 rows fits it on that dataset's amounts; afterwards it is
    kept, and STATISTICAL_OUTLIER is decided by the stored model even when
    a later call passes another dataset.  A call with no dataset or fewer
    than 10 rows leaves it as it was. *)
Theorem amount_model_fitted_once
  (strptime : string -> option Z) (iforest_outlier : list Q -> Q -> bool)
  (st : detector_state) (inv : invoice) (ds : dataset) :
  exists r st',
    analyze_invoice strptime iforest_outlier st inv ds = Ok (r, st') /\
    (forall m, st = Some m -> st' = Some m) /\
    (forall rows, ds = Some rows -> (10 <= List.length rows)%nat ->
       st' = Some (match st with Some m => m | None => map Total_Amount rows end) /\
       (In STATISTICAL_OUTLIER (flags r) <->
        iforest_outlier (match st with Some m => m | None => map Total_Amount rows end)
                        (Total_Amount inv) = true)) /\
    ((forall rows, ds = Some rows -> (List.length rows < 10)%nat) -> st' = st).
Proof.
  destruct (flags_by_detector strptime iforest_outlier st inv ds)
    as (r & st' & basic & temp & Ha & _ & _ & _ & _ & Hstat).
  destruct (analyze_invoice_shape strptime iforest_outlier st inv ds)
    as (basic' & temp' & _ & _ & Ha'); cbv zeta in Ha'.
  rewrite Ha in Ha'; injection Ha' as _ Hst.
  exists r, st'; split; [exact Ha|]; rewrite Hst.
  split; [|split].
  - intros m ->; unfold check_statistical_anomalies.
    destruct ds as [rows|]; [|reflexivity].
    destruct (Nat.ltb _ _); reflexivity.
  - intros rows -> Hn.
    destruct (statistical_outlier_model iforest_outlier st inv rows Hn) as [Hout Hs].
    split; [exact Hs|]; rewrite (Hstat STATISTICAL_OUTLIER eq_refl); exact Hout.
  - intro Hsmall; unfold check_statistical_anomalies.
    destruct ds as [rows|]; [|reflexivity].
    specialize (Hsmall rows eq_refl); apply Nat.ltb_lt in Hsmall; rewrite Hsmall; reflexivity.
Qed.

(** The order of the three risk levels. *)
Definition level_rank (level : string) : nat :=
  if String.eqb level "High" then 2
  else if String.eqb level "Medium" then 1
  else 0.

(** [_calculate_risk_level] is monotone: a higher score or a higher amount
    never gives a lower level. *)
Theorem calculate_risk_level_monotone (s1 s2 : nat) (a1 a2 : Q)
  (Hs : (s1 <= s2)%nat) (Ha : a1 <= a2) :
  (level_rank (calculate_risk_level s1 a1) <= level_rank (calculate_risk_level s2 a2))%nat.
Proof.
  unfold calculate_risk_level.
  set (n1 := if Qltb 10000 a1 then _ else _).
  set (n2 := if Qltb 10000 a2 then _ else _).
  assert (Hn : (n1 <= n2)%nat).
  { subst n1 n2.
    destruct (Qltb 10000 a1) eqn:E1, (Qltb 5000 a1) eqn:E2,
      (Qltb 10000 a2) eqn:E3, (Qltb 5000 a2) eqn:E4;
      rewrite ?Qltb_lt, ?Qltb_ge in *; try lia; lra. }
  clearbody n1 n2.
  destruct (Nat.leb_spec 5 n1), (Nat.leb_spec 3 n1), (Nat.leb_spec 5 n2),
    (Nat.leb_spec 3 n2); cbn; lia.
Qed.

Lemma calculate_risk_level_monotone_witness :
  (level_rank (calculate_risk_level 1 100) <= level_rank (calculate_risk_level 3 6000))%nat.
Proof.
  apply (calculate_risk_level_monotone 1 3 100 6000); [lia|apply Qle_bool_iff; reflexivity].
Defined.

Lemma filter_all_false {A} (p : A -> bool) (l : list A) :
  (forall x, In x l -> p x = false) -> filter p l = [].
Proof.
  induction l as [|x l IH]; intro H; simpl; [reflexivity|].
  rewrite (H x (or_introl eq_refl)); apply IH; intros y Hy; apply H; right; exact Hy.
Qed.

(** The risk score is the number of flags plus the number of statistical
    flags (STATISTICAL_OUTLIER, EXTREME_Z_SCORE, IQR_OUTLIER), which count
    twice. *)
Theorem risk_score_counts_flags
  (strptime : string -> option Z) (iforest_outlier : list Q -> Q -> bool)
  (st : detector_state) (inv : invoice) (ds : dataset) :
  exists r st',
    analyze_invoice strptime iforest_outlier st inv ds = Ok (r, st') /\
    risk_score r = (List.length (flags r) + List.length (filter statistical_flag (flags r)))%nat.
Proof.
  destruct (analyze_invoice_shape strptime iforest_outlier st inv ds)
    as (basic & temp & Hb & Ht & Ha); cbv zeta in Ha.
  do 2 eexists; split; [exact Ha|]; cbn [flags risk_score].
  rewrite check_vendor_behavior_nil.
  set (stat := fst (check_statistical_anomalies iforest_outlier st inv ds)).
  assert (Hs : filter statistical_flag stat = stat).
  { apply forallb_filter_id, forallb_forall; intros f Hf.
    apply (statistical_flag_kinds iforest_outlier st inv ds f Hf). }
  assert (Hbf : filter statistical_flag basic = []).
  { apply filter_all_false; intros f Hf.
    apply (business_flag_kinds strptime inv ds basic f Hb) in Hf; destruct f; simpl in *;
      congruence. }
  assert (Htf : filter statistical_flag temp = []).
  { destruct (temporal_flags strptime inv temp Ht) as [->|[-> _]]; reflexivity. }
  rewrite !filter_app, Hs, Hbf, Htf, !length_app; simpl; lia.
Qed.

(** Each anomaly detail carries its flag's severity; a detail of severity
    "High" exists exactly when the invoice is flagged POTENTIAL_DUPLICATE,
    EXTREME_AMOUNT_HIGH or EXTREME_Z_SCORE (EXCEEDS_VENDOR_HISTORICAL_MAX,
    the other "High" entry of the map, is never raised). *)
Theorem high_severity_details
  (strptime : string -> option Z) (iforest_outlier : list Q -> Q -> bool)
  (st : detector_state) (inv : invoice) (ds : dataset) :
  exists r st',
    analyze_invoice strptime iforest_outlier st inv ds = Ok (r, st') /\
    map (fun e => fst (fst e)) (anomaly_details r) = flags r /\
    ((exists e, In e (anomaly_details r) /\ snd (fst e) = "High") <->
     In POTENTIAL_DUPLICATE (flags r) \/ In EXTREME_AMOUNT_HIGH (flags r) \/
     In EXTREME_Z_SCORE (flags r)).
Proof.
  destruct (flags_by_detector strptime iforest_outlier st inv ds)
    as (r & st' & basic & temp & Ha & Hb & Ht & Hall & _ & _).
  destruct (analyze_invoice_shape strptime iforest_outlier st inv ds)
    as (basic' & temp' & _ & _ & Ha'); cbv zeta in Ha'.
  rewrite Ha in Ha'; injection Ha' as Hr _.
  assert (Ed : anomaly_details r =
               map (fun f => (f, get_anomaly_severity f, calculate_amount_impact f inv)) (flags r))
    by (rewrite Hr; reflexivity).
  exists r, st'; split; [exact Ha|]; rewrite Ed; split.
  - rewrite map_map; simpl; apply map_id.
  - assert (Hx : ~ In EXCEEDS_VENDOR_HISTORICAL_MAX (flags r)).
    { rewrite Hall; intros [H|[H|H]].
      - apply (business_flag_kinds strptime inv ds basic _ Hb) in H; discriminate.
      - apply statistical_flag_kinds in H; discriminate.
      - destruct (temporal_flags strptime inv temp Ht) as [->|[-> _]];
          [destruct H|destruct H as [H|[]]; discriminate]. }
    split.
    + intros (e & He & Hsev); apply in_map_iff in He; destruct He as (f & <- & Hf).
      simpl in Hsev; destruct f; simpl in Hsev; try discriminate; tauto.
    + intros H; destruct H as [H|[H|H]]; eexists; (split; [apply in_map; exact H|reflexivity]).
Qed.

(** [_calculate_amount_impact] for a non-negative amount: every impact is
    non-negative, and, except for the tax anomaly, at most the amount;
    POTENTIAL_DUPLICATE puts the whole amount at risk and a flag outside
    the impact map (EXTREME_AMOUNT_LOW among them) puts none. *)
Theorem calculate_amount_impact_bounds (f : flag) (inv : invoice)
  (Hpos : 0 <= Total_Amount inv) :
  0 <= calculate_amount_impact f inv /\
  (f <> TAX_CALCULATION_ANOMALY -> calculate_amount_impact f inv <= Total_Amount inv) /\
  calculate_amount_impact POTENTIAL_DUPLICATE inv = Total_Amount inv /\
  calculate_amount_impact EXTREME_AMOUNT_LOW inv = 0.
Proof.
  split; [|split; [|split; reflexivity]];
    unfold calculate_amount_impact; destruct f; try (intros; lra).
  - apply Qabs_nonneg.
  - intro H; exfalso; apply H; reflexivity.
Qed.

Definition inv_weekday_7500 : invoice :=
  mkInvoice "INV-7001" "Globex" (Some "2024-03-05") 7500 (Some 750).

Lemma calculate_amount_impact_bounds_witness :
  0 <= calculate_amount_impact STATISTICAL_OUTLIER inv_weekday_7500 /\
  (STATISTICAL_OUTLIER <> TAX_CALCULATION_ANOMALY ->
   calculate_amount_impact STATISTICAL_OUTLIER inv_weekday_7500 <= Total_Amount inv_weekday_7500) /\
  calculate_amount_impact POTENTIAL_DUPLICATE inv_weekday_7500 = Total_Amount inv_weekday_7500 /\
  calculate_amount_impact EXTREME_AMOUNT_LOW inv_weekday_7500 = 0.
Proof.
  apply (calculate_amount_impact_bounds STATISTICAL_OUTLIER inv_weekday_7500).
  apply Qle_bool_iff; reflexivity.
Defined.



(** * Further properties of the store *)

(** A call of the store returns [False] exactly when a required value is
    missing (for [save_invoice] one of invoice_id, vendor_name,
    invoice_date, total_amount; for [save_anomaly] invoice_id or
    anomaly_type; for [update_invoice_status] invoice_id), and then the
    store is left as it was. *)
Theorem store_call_failure (s : store) (op : store_op) :
  (fst (step s op) = false <->
   match op with
   | SaveInvoice _ d =>
       d_invoice_id d = None \/ d_vendor_name d = None \/
       d_invoice_date d = None \/ d_total_amount d = None
   | SaveAnomaly iid at_ _ _ _ => iid = None \/ at_ = None
   | UpdateStatus _ iid _ _ => iid = None
   end) /\
  (fst (step s op) = false -> snd (step s op) = s).
Proof.
  destruct op as [now d|iid at_ desc sev imp|now iid st notes]; simpl.
  - unfold save_invoice.
    destruct (d_invoice_id d), (d_vendor_name d), (d_invoice_date d), (d_total_amount d);
      simpl; intuition discriminate.
  - unfold save_anomaly; destruct iid, at_; simpl; intuition discriminate.
  - unfold update_invoice_status; destruct iid; simpl; intuition discriminate.
Qed.

(** [save_invoice] with the four required values: the rows of every other
    invoice_id stay as they were and in their order, the saved row comes
    last with a fresh id and the defaults of the optional columns, the
    anomalies table is untouched and one SAVE entry is appended to the
    log. *)
Theorem save_invoice_success (now : nat) (s : store) (d : invoice_data)
  (iid vendor date : string) (total : Q)
  (Hid : d_invoice_id d = Some iid) (Hv : d_vendor_name d = Some vendor)
  (Hd : d_invoice_date d = Some date) (Ht : d_total_amount d = Some total) :
  exists s' row,
    save_invoice now s d = (true, s') /\
    filter (fun r => negb (String.eqb (r_invoice_id r) iid)) (invoices s') =
      filter (fun r => negb (String.eqb (r_invoice_id r) iid)) (invoices s) /\
    filter (fun r => String.eqb (r_invoice_id r) iid) (invoices s') = [row] /\
    (exists pre, invoices s' = (pre ++ [row])%list) /\
    r_id row = S (seq_invoices s) /\
    r_vendor_name row = vendor /\ r_invoice_date row = date /\ r_total_amount row = total /\
    r_tax_amount row = get_or (d_tax_amount d) 0 /\
    r_department row = get_or (d_department d) "Unknown" /\
    r_source_type row = get_or (d_source_type d) "Digital" /\
    r_status row = Some (get_or (d_status d) "Pending") /\
    r_risk_level row = get_or (d_risk_level d) "Low" /\
    r_anomaly_type row = get_or (d_anomaly_type d) "No Anomaly" /\
    r_processed_at row = now /\
    anomalies s' = anomalies s /\
    exists e, processing_log s' = (processing_log s ++ [e])%list /\
              l_invoice_id e = iid /\ l_action e = "SAVE".
Proof.
  unfold save_invoice; rewrite Hid, Hv, Hd, Ht.
  set (row := mkInvRow (S (seq_invoices s)) iid vendor date (d_due_date d) total
                (get_or (d_tax_amount d) 0) (get_or (d_item_description d) "")
                (get_or (d_payment_terms d) "") (get_or (d_department d) "Unknown")
                (get_or (d_source_type d) "Digital") (Some (get_or (d_status d) "Pending"))
                (get_or (d_risk_level d) "Low") (get_or (d_anomaly_type d) "No Anomaly") now).
  eexists; exists row; split; [reflexivity|].
  unfold append_log, insert_or_replace; cbn [invoices anomalies processing_log seq_log].
  split; [|split; [exact (replace_row_single (invoices s) row)|]].
  - rewrite filter_app; simpl; rewrite String.eqb_refl, app_nil_r.
    induction (invoices s) as [|x l IH]; simpl; [reflexivity|].
    destruct (String.eqb (r_invoice_id x) iid) eqn:E; simpl; [exact IH|].
    rewrite E; simpl; rewrite IH; reflexivity.
  - split; [eexists; reflexivity|].
    repeat (split; [reflexivity|]).
    eexists; split; [reflexivity|split; reflexivity].
Qed.

Definition d_sample : invoice_data :=
  mkInvoiceData (Some "INV-7001") (Some "Globex") (Some "2024-03-05") None (Some 7500)
    None None None None None None None None.

Lemma save_invoice_success_witness :
  exists s' row,
    save_invoice 3 store_init d_sample = (true, s') /\
    filter (fun r => negb (String.eqb (r_invoice_id r) "INV-7001")) (invoices s') =
      filter (fun r => negb (String.eqb (r_invoice_id r) "INV-7001")) (invoices store_init) /\
    filter (fun r => String.eqb (r_invoice_id r) "INV-7001") (invoices s') = [row] /\
    (exists pre, invoices s' = (pre ++ [row])%list) /\
    r_id row = S (seq_invoices store_init) /\
    r_vendor_name row = "Globex" /\ r_invoice_date row = "2024-03-05" /\
    r_total_amount row = 7500 /\
    r_tax_amount row = get_or (d_tax_amount d_sample) 0 /\
    r_department row = get_or (d_department d_sample) "Unknown" /\
    r_source_type row = get_or (d_source_type d_sample) "Digital" /\
    r_status row = Some (get_or (d_status d_sample) "Pending") /\
    r_risk_level row = get_or (d_risk_level d_sample) "Low" /\
    r_anomaly_type row = get_or (d_anomaly_type d_sample) "No Anomaly" /\
    r_processed_at row = 3%nat /\
    anomalies s' = anomalies store_init /\
    exists e, processing_log s' = (processing_log store_init ++ [e])%list /\
              l_invoice_id e = "INV-7001" /\ l_action e = "SAVE".
Proof.
  apply (save_invoice_success 3 store_init d_sample "INV-7001" "Globex" "2024-03-05" 7500);
    reflexivity.
Defined.


(** The AUTOINCREMENT invariant of the three tables: row ids are distinct
    and none exceeds the table's counter. *)
Definition ids_fresh (s : store) : Prop :=
  NoDup (map r_id (invoices s)) /\ Forall (fun r => (r_id r <= seq_invoices s)%nat) (invoices s) /\
  NoDup (map a_id (anomalies s)) /\ Forall (fun a => (a_id a <= seq_anomalies s)%nat) (anomalies s) /\
  NoDup (map l_id (processing_log s)) /\
  Forall (fun e => (l_id e <= seq_log s)%nat) (processing_log s).

Lemma snoc_fresh {A} (f : A -> nat) (l : list A) (x : A) (n : nat) :
  NoDup (map f l) -> Forall (fun y => (f y <= n)%nat) l -> f x = S n ->
  NoDup (map f (l ++ [x])) /\ Forall (fun y => (f y <= S n)%nat) (l ++ [x]).
Proof.
  induction l as [|a l IH]; simpl; intros Hnd Hall Hx.
  - split; [constructor; [intros []|constructor]|constructor; [lia|constructor]].
  - inversion Hnd as [|? ? Hna Hnd']; inversion Hall as [|? ? Ha Hall']; subst.
    destruct (IH Hnd' Hall' Hx) as [H1 H2]; split.
    + constructor; [|exact H1].
      rewrite map_app, in_app_iff; simpl; intros [H|[H|[]]]; [contradiction|lia].
    + constructor; [lia|exact H2].
Qed.

Lemma filter_fresh {A} (f : A -> nat) (p : A -> bool) (P : A -> Prop) (l : list A) :
  NoDup (map f l) -> Forall P l -> NoDup (map f (filter p l)) /\ Forall P (filter p l).
Proof.
  induction l as [|a l IH]; simpl; intros Hnd Hall; [split; constructor|].
  inversion Hnd as [|? ? Hna Hnd']; inversion Hall as [|? ? Ha Hall']; subst.
  destruct (IH Hnd' Hall') as [H1 H2].
  destruct (p a); simpl; [|tauto].
  split; [constructor; [|exact H1]|constructor; [exact Ha|exact H2]].
  intro Hin; apply Hna; apply in_map_iff in Hin; destruct Hin as (y & Hy & Hin).
  apply filter_In in Hin; rewrite <- Hy; apply in_map; tauto.
Qed.

Lemma Forall_le_succ {A} (f : A -> nat) (n : nat) (l : list A) :
  Forall (fun y => (f y <= n)%nat) l -> Forall (fun y => (f y <= S n)%nat) l.
Proof. apply Forall_impl; intros; lia. Qed.

Lemma append_log_fresh (s : store) (iid action details : string) :
  NoDup (map l_id (processing_log s)) ->
  Forall (fun e => (l_id e <= seq_log s)%nat) (processing_log s) ->
  NoDup (map l_id (processing_log (append_log s iid action details))) /\
  Forall (fun e => (l_id e <= seq_log (append_log s iid action details))%nat)
    (processing_log (append_log s iid action details)).
Proof. intros H1 H2; apply snoc_fresh; [exact H1|exact H2|reflexivity]. Qed.

Lemma step_ids_fresh (s : store) (op : store_op) : ids_fresh s -> ids_fresh (snd (step s op)).
Proof.
  intros (Hi1 & Hi2 & Ha1 & Ha2 & Hl1 & Hl2).
  destruct op as [now d|iid at_ desc sev imp|now iid st notes]; simpl.
  - unfold save_invoice.
    destruct (d_invoice_id d) as [iid|], (d_vendor_name d) as [v|], (d_invoice_date d) as [dt|],
      (d_total_amount d) as [t|]; try (repeat split; assumption).
    cbv beta iota zeta; cbn [snd]; unfold insert_or_replace.
    match goal with |- ids_fresh (append_log ?s1 _ _ _) =>
      assert (Hs1 : ids_fresh s1) end.
    { unfold ids_fresh; cbn [invoices anomalies processing_log seq_invoices seq_anomalies seq_log].
      destruct (filter_fresh r_id
                  (fun r => negb (String.eqb (r_invoice_id r) iid)) _ _ Hi1 Hi2) as [F1 F2].
      destruct (snoc_fresh r_id _ (mkInvRow (S (seq_invoices s)) iid v dt (d_due_date d) t
                  (get_or (d_tax_amount d) 0) (get_or (d_item_description d) "")
                  (get_or (d_payment_terms d) "") (get_or (d_department d) "Unknown")
                  (get_or (d_source_type d) "Digital") (Some (get_or (d_status d) "Pending"))
                  (get_or (d_risk_level d) "Low") (get_or (d_anomaly_type d) "No Anomaly") now)
                  (seq_invoices s) F1 F2 eq_refl) as [G1 G2].
      tauto. }
    destruct Hs1 as (S1 & S2 & S3 & S4 & S5 & S6).
    destruct (append_log_fresh _ iid "SAVE" ("Invoice saved/updated with risk level: "
                ++ get_or (d_risk_level d) "Low") S5 S6) as [L1 L2].
    unfold ids_fresh; unfold append_log in *; cbn in L1, L2 |- *; tauto.
  - unfold save_anomaly; destruct iid as [iid|], at_ as [at_|]; try (repeat split; assumption).
    unfold ids_fresh; cbn [invoices anomalies processing_log seq_invoices seq_anomalies seq_log].
    destruct (snoc_fresh a_id (anomalies s) (mkAnomalyRow (S (seq_anomalies s)) iid at_ desc sev imp)
                (seq_anomalies s) Ha1 Ha2 eq_refl).
    tauto.
  - unfold update_invoice_status; destruct iid as [iid|]; [|repeat split; assumption].
    set (upd := fun r => if String.eqb (r_invoice_id r) iid then _ else r).
    assert (Hid : forall r, r_id (upd r) = r_id r)
      by (intro r; subst upd; simpl; destruct (String.eqb (r_invoice_id r) iid); reflexivity).
    destruct (append_log_fresh (mkStore (map upd (invoices s)) (anomalies s) (processing_log s)
                (seq_invoices s) (seq_anomalies s) (seq_log s)) iid "STATUS_UPDATE"
                ("Status changed to " ++ py_str st ++ ". Notes: " ++ notes_or notes) Hl1 Hl2)
      as [L1 L2].
    unfold ids_fresh; unfold append_log in *; cbn in L1, L2 |- *.
    rewrite map_map, (map_ext _ _ Hid), Forall_map.
    split; [exact Hi1|split; [|tauto]].
    eapply Forall_impl; [|exact Hi2]; intros r Hr; simpl; rewrite Hid; exact Hr.
Qed.

(** AUTOINCREMENT: after any sequence of store calls from a fresh
    database, the ids of each table are distinct and none exceeds the
    table's counter, so the next insert gets an unused id. *)
Theorem autoincrement_ids_unique (ops : list store_op) :
  let s := run_ops store_init ops in
  NoDup (map r_id (invoices s)) /\ NoDup (map a_id (anomalies s)) /\
  NoDup (map l_id (processing_log s)) /\
  (forall r, In r (invoices s) -> (r_id r <= seq_invoices s)%nat) /\
  (forall a, In a (anomalies s) -> (a_id a <= seq_anomalies s)%nat) /\
  (forall e, In e (processing_log s) -> (l_id e <= seq_log s)%nat).
Proof.
  cbv zeta.
  assert (H : ids_fresh (run_ops store_init ops)).
  { assert (H0 : ids_fresh store_init) by (repeat split; constructor).
    revert H0; generalize store_init.
    induction ops as [|op ops IH]; intros s0 H0; simpl; [exact H0|].
    apply IH, step_ids_fresh, H0. }
  destruct H as (H1 & H2 & H3 & H4 & H5 & H6); rewrite Forall_forall in H2, H4, H6.
  tauto.
Qed.

(** * Further properties of the search *)

Lemma search_invoices_paging_witness :
  let res := search_invoices store_init (Some no_filters) 2 10 in
  let n := Z.of_nat (List.length (filter (where_clause (Some no_filters)) (invoices store_init))) in
  (forall r, In r (sr_invoices res) ->
     In r (invoices store_init) /\ where_clause (Some no_filters) r = true) /\
  sr_total_count res = n /\
  (n <= 10 * sr_total_pages res)%Z /\
  (10 * (sr_total_pages res - 1) < n \/ (n = 0 /\ sr_total_pages res = 0))%Z /\
  ((sr_total_pages res < 2)%Z -> sr_invoices res = []).
Proof. apply (search_invoices_paging store_init (Some no_filters) 2 10); lia. Defined.

Definition row_order (a b : inv_row) : Prop := row_before a b = true.

Lemma row_before_total (a b : inv_row) : row_before a b = false -> row_before b a = true.
Proof.
  unfold row_before, String.ltb; intro H; apply orb_false_iff in H; destruct H as [H1 H2].
  destruct (String.compare (r_invoice_date b) (r_invoice_date a)) eqn:C; try discriminate H1.
  - apply String.compare_eq_iff in C; rewrite C in H2 |- *.
    rewrite String.eqb_refl in H2 |- *; simpl in H2 |- *.
    rewrite String.compare_antisym; destruct (String.compare _ _); simpl;
      try reflexivity; apply Qle_bool_iff; apply Qlt_le_weak, Qnot_le_lt;
      intro Hle; apply Qle_bool_iff in Hle; congruence.
  - rewrite String.compare_antisym, C; reflexivity.
Qed.

Lemma insert_row_hd (x y : inv_row) (t : list inv_row) :
  HdRel row_order y t -> row_order y x -> HdRel row_order y (insert_row x t).
Proof.
  intros Ht Hx; destruct t as [|z t]; simpl; [constructor; exact Hx|].
  destruct (row_before x z); constructor; [exact Hx|].
  inversion Ht; assumption.
Qed.

Lemma insert_row_sorted (x : inv_row) (l : list inv_row) :
  Sorted row_order l -> Sorted row_order (insert_row x l).
Proof.
  induction l as [|y l IH]; intro Hs; simpl; [constructor; constructor|].
  apply Sorted_inv in Hs; destruct Hs as [Hs Hd].
  destruct (row_before x y) eqn:E.
  - constructor; [constructor; assumption|constructor; exact E].
  - constructor; [apply IH; exact Hs|].
    apply insert_row_hd; [exact Hd|apply row_before_total; exact E].
Qed.

Lemma order_rows_sorted (l : list inv_row) : Sorted row_order (order_rows l).
Proof. induction l as [|x l IH]; simpl; [constructor|apply insert_row_sorted, IH]. Qed.

Lemma sorted_skipn (n : nat) (l : list inv_row) :
  Sorted row_order l -> Sorted row_order (skipn n l).
Proof.
  revert l; induction n as [|n IH]; intros l Hs; [exact Hs|].
  destruct l as [|x l]; [constructor|]; simpl; apply IH.
  apply Sorted_inv in Hs; tauto.
Qed.

Lemma sorted_firstn (n : nat) (l : list inv_row) :
  Sorted row_order l -> Sorted row_order (firstn n l).
Proof.
  revert n; induction l as [|x l IH]; intros n Hs; destruct n as [|n]; simpl; try constructor.
  - apply IH; apply Sorted_inv in Hs; tauto.
  - apply Sorted_inv in Hs; destruct Hs as [_ Hd].
    destruct l as [|y l], n as [|n]; simpl; constructor; inversion Hd; assumption.
Qed.

Lemma sorted_weaken {A} (R1 R2 : A -> A -> Prop) (l : list A) :
  (forall a b, R1 a b -> R2 a b) -> Sorted R1 l -> Sorted R2 l.
Proof.
  intros Himp Hs; induction Hs as [|x l Hs IH Hd]; constructor; [exact IH|].
  destruct Hd; constructor; apply Himp; assumption.
Qed.

(** Every page [search_invoices] returns is in the order of
    [ORDER BY invoice_date DESC, total_amount DESC]: each row has a later
    invoice_date than the next, or the same one and a total_amount at least
    as large. *)
Theorem search_page_ordered (s : store) (filters : option filter_set) (page per_page : Z) :
  Sorted (fun a b => String.ltb (r_invoice_date b) (r_invoice_date a) = true \/
                     (r_invoice_date a = r_invoice_date b /\ r_total_amount b <= r_total_amount a))
    (sr_invoices (search_invoices s filters page per_page)).
Proof.
  apply (sorted_weaken row_order).
  - intros a b H; unfold row_order, row_before in H.
    apply orb_true_iff in H; destruct H as [H|H]; [left; exact H|right].
    apply andb_true_iff in H; destruct H as [H1 H2].
    apply String.eqb_eq in H1; apply Qle_bool_iff in H2; tauto.
  - unfold search_invoices, limit_offset; simpl.
    destruct (Z.ltb per_page 0); [|apply sorted_firstn];
      apply sorted_skipn, order_rows_sorted.
Qed.

Lemma firstn_add_skipn {A} (a b : nat) (l : list A) :
  firstn (a + b) l = (firstn a l ++ firstn b (skipn a l))%list.
Proof.
  revert l; induction a as [|a IH]; intro l; [reflexivity|].
  destruct l as [|x l]; simpl; [rewrite firstn_nil; reflexivity|rewrite IH; reflexivity].
Qed.

Lemma pages_prefix (per_page : Z) (L : list inv_row) (n : nat) :
  (1 <= per_page)%Z ->
  List.concat (map (fun k => limit_offset per_page ((Z.of_nat k - 1) * per_page) L) (seq 1 n)) =
  firstn (n * Z.to_nat per_page) L.
Proof.
  intro Hp; induction n as [|n IH]; [reflexivity|].
  rewrite seq_S, map_app, List.concat_app, IH; cbn [map List.concat]; rewrite app_nil_r.
  unfold limit_offset.
  replace (Z.ltb per_page 0) with false by (symmetry; apply Z.ltb_ge; lia).
  replace (Z.to_nat ((Z.of_nat (1 + n) - 1) * per_page)) with (n * Z.to_nat per_page)%nat
    by (rewrite Z2Nat.inj_mul by lia; f_equal; lia).
  rewrite <- firstn_add_skipn; f_equal; lia.
Qed.

(** Reading the pages 1 to total_pages of a search (page size at least 1)
    returns every matching row exactly once, in the ORDER BY order. *)
Theorem search_pages_cover (s : store) (filters : option filter_set) (per_page : Z)
  (Hp : (1 <= per_page)%Z) :
  List.concat (map (fun k => sr_invoices (search_invoices s filters (Z.of_nat k) per_page))
              (seq 1 (Z.to_nat (sr_total_pages (search_invoices s filters 1 per_page))))) =
  order_rows (filter (where_clause filters) (invoices s)).
Proof.
  set (L := order_rows (filter (where_clause filters) (invoices s))).
  assert (E : (fun k => sr_invoices (search_invoices s filters (Z.of_nat k) per_page)) =
              (fun k => limit_offset per_page ((Z.of_nat k - 1) * per_page) L))
    by reflexivity.
  rewrite E, pages_prefix by exact Hp.
  apply firstn_all2.
  unfold search_invoices; cbn [sr_total_pages].
  fold L.
  set (m := List.length (filter (where_clause filters) (invoices s))).
  assert (HL : List.length L = m) by (apply order_rows_length).
  rewrite HL.
  set (q := ((Z.of_nat m + per_page - 1) / per_page)%Z).
  pose proof (Z.div_mod (Z.of_nat m + per_page - 1) per_page ltac:(lia)) as Hdm.
  pose proof (Z.mod_pos_bound (Z.of_nat m + per_page - 1) per_page ltac:(lia)) as Hb.
  fold q in Hdm.
  set (rem := ((Z.of_nat m + per_page - 1) mod per_page)%Z) in *.
  assert (Hq : (Z.of_nat m <= q * per_page /\ 0 <= q)%Z) by nia.
  rewrite <- Z2Nat.inj_mul by lia; lia.
Qed.

Lemma search_pages_cover_witness :
  List.concat (map (fun k => sr_invoices (search_invoices store_init None (Z.of_nat k) 5))
              (seq 1 (Z.to_nat (sr_total_pages (search_invoices store_init None 1 5))))) =
  order_rows (filter (where_clause None) (invoices store_init)).
Proof. apply (search_pages_cover store_init None 5); lia. Defined.

Lemma ascii_lower_idem (c : ascii) : ascii_lower (ascii_lower c) = ascii_lower c.
Proof. destruct c as [[] [] [] [] [] [] [] []]; reflexivity. Qed.

Lemma like_lower (p : string) : forall s, like p s = like p (str_lower s).
Proof.
  induction p as [|c p IH]; intro s.
  - destruct s; reflexivity.
  - simpl; destruct (Ascii.eqb c "%"%char).
    + induction s as [|a t IHs]; simpl; [reflexivity|].
      rewrite IHs; f_equal; rewrite (IH (String a t)); reflexivity.
    + destruct s as [|a t]; simpl; [reflexivity|].
      rewrite ascii_lower_idem, (IH t); reflexivity.
Qed.

Lemma like_percent (c : ascii) (p t : string) :
  Ascii.eqb c "%"%char = true ->
  like (String c p) t =
  like p t || match t with EmptyString => false | String _ t' => like (String c p) t' end.
Proof. intro Ec; destruct t; simpl; rewrite Ec; reflexivity. Qed.

Lemma like_self_percent (v : string) : like (v ++ "%") v = true.
Proof.
  induction v as [|c v IH]; [reflexivity|].
  change (String c v ++ "%") with (String c (v ++ "%")).
  destruct (Ascii.eqb c "%"%char) eqn:Ec.
  - rewrite (like_percent c _ _ Ec), (like_percent c _ v Ec), IH, !orb_true_r; reflexivity.
  - simpl; rewrite Ec; cbv iota beta.
    rewrite Ascii.eqb_refl, orb_true_r, IH; reflexivity.
Qed.

(** The vendor filter is a case-insensitive substring match on ASCII
    letters: a row whose vendor_name equals the filter text up to the case
    of its letters always matches it. *)
Theorem vendor_filter_ignores_case (v : string) (r : inv_row)
  (Hv : v <> "") (Hr : str_lower (r_vendor_name r) = str_lower v) :
  where_clause (Some (mkFilters (Some v) None None None None None None None)) r = true.
Proof.
  assert (Tv : truthy_str (Some v) = Some v)
    by (apply String.eqb_neq in Hv; simpl; rewrite Hv; reflexivity).
  unfold where_clause; cbn [f_vendor f_start_date f_end_date f_min_amount f_max_amount
                             f_risk_level f_anomaly_type f_status].
  rewrite Tv; cbn [truthy_str truthy_num]; rewrite !andb_true_r.
  rewrite like_lower, Hr, <- like_lower.
  change ("%" ++ v ++ "%") with (String "%" (v ++ "%")).
  rewrite like_percent by reflexivity; rewrite like_self_percent; reflexivity.
Qed.

Definition row_acme : inv_row :=
  mkInvRow 1 "INV-7002" "ACME Corp" "2024-03-05" None 120 12 "" "" "Unknown" "Digital"
    (Some "Pending") "Low" "No Anomaly" 0.

Lemma vendor_filter_ignores_case_witness :
  where_clause (Some (mkFilters (Some "acme corp") None None None None None None None)) row_acme
  = true.
Proof. apply (vendor_filter_ignores_case "acme corp" row_acme); [discriminate|reflexivity]. Defined.

(** * Properties of [get_invoice_stats] *)

Fixpoint sum_counts (g : list (string * nat)) : nat :=
  match g with [] => 0%nat | (_, n) :: t => (n + sum_counts t)%nat end.

Definition group_lookup (k : string) (g : list (string * nat)) : nat :=
  match find (fun p => String.eqb (fst p) k) g with Some p => snd p | None => 0%nat end.

Fixpoint vendor_count_sum (g : list (string * nat * Q)) : nat :=
  match g with [] => 0%nat | (_, n, _) :: t => (n + vendor_count_sum t)%nat end.

Fixpoint vendor_total_sum (g : list (string * nat * Q)) : Q :=
  match g with [] => 0 | (_, _, t) :: rest => t + vendor_total_sum rest end.

Lemma add_group_sum (k : string) (g : list (string * nat)) :
  sum_counts (add_group k g) = S (sum_counts g).
Proof.
  induction g as [|[k' n] g IH]; simpl; [reflexivity|].
  destruct (String.eqb k k'); simpl; [reflexivity|].
  rewrite IH; lia.
Qed.

Lemma add_group_lookup (k k' : string) (g : list (string * nat)) :
  group_lookup k' (add_group k g) = (group_lookup k' g + if String.eqb k k' then 1 else 0)%nat.
Proof.
  unfold group_lookup; induction g as [|[k0 n] g IH]; simpl.
  - destruct (String.eqb k k'); reflexivity.
  - destruct (String.eqb k k0) eqn:E; simpl.
    + apply String.eqb_eq in E; subst k0.
      destruct (String.eqb k k'); simpl; lia.
    + destruct (String.eqb k0 k') eqn:E'; [|exact IH].
      apply String.eqb_eq in E'; subst k0; rewrite E; simpl; lia.
Qed.

Lemma group_fold (key : inv_row -> string) (k : string) (rows : list inv_row)
  (g0 : list (string * nat)) :
  sum_counts (fold_left (fun g r => add_group (key r) g) rows g0) =
    (List.length rows + sum_counts g0)%nat /\
  group_lookup k (fold_left (fun g r => add_group (key r) g) rows g0) =
    (group_lookup k g0 + List.length (filter (fun r => String.eqb (key r) k) rows))%nat.
Proof.
  revert g0; induction rows as [|r rows IH]; intro g0; simpl; [split; lia|].
  destruct (IH (add_group (key r) g0)) as [H1 H2].
  rewrite H1, H2, add_group_sum, add_group_lookup.
  split; [lia|]; destruct (String.eqb (key r) k); simpl; lia.
Qed.

Lemma add_vendor_group_sums (k : string) (a : Q) (g : list (string * nat * Q)) :
  vendor_count_sum (add_vendor_group k a g) = S (vendor_count_sum g) /\
  vendor_total_sum (add_vendor_group k a g) == vendor_total_sum g + a.
Proof.
  induction g as [|[[k' n] t] g IH]; simpl; [split; [reflexivity|ring]|].
  destruct (String.eqb k k'); simpl; [split; [reflexivity|ring]|].
  destruct IH as [H1 H2].
  split; [rewrite H1; lia|rewrite H2; ring].
Qed.

Lemma vendor_groups_fold (rows : list inv_row) (g0 : list (string * nat * Q)) :
  let g := fold_left (fun g r => add_vendor_group (r_vendor_name r) (r_total_amount r) g) rows g0 in
  vendor_count_sum g = (List.length rows + vendor_count_sum g0)%nat /\
  vendor_total_sum g == vendor_total_sum g0 + sumQ (map r_total_amount rows).
Proof.
  revert g0; induction rows as [|r rows IH]; intro g0; simpl; [split; [lia|unfold sumQ; simpl; ring]|].
  destruct (IH (add_vendor_group (r_vendor_name r) (r_total_amount r) g0)) as [H1 H2].
  destruct (add_vendor_group_sums (r_vendor_name r) (r_total_amount r) g0) as [A1 A2].
  split; [rewrite H1, A1; lia|].
  rewrite H2, A2; unfold sumQ; simpl; ring.
Qed.

Lemma sort_by_total_sums (l : list (string * nat * Q)) :
  vendor_count_sum (sort_by_total l) = vendor_count_sum l /\
  vendor_total_sum (sort_by_total l) == vendor_total_sum l.
Proof.
  assert (Hins : forall x m, vendor_count_sum (insert_by_total x m) =
                             (snd (fst x) + vendor_count_sum m)%nat /\
                             vendor_total_sum (insert_by_total x m) == snd x + vendor_total_sum m).
  { intros [[k n] t] m; induction m as [|y m IH]; simpl; [split; [reflexivity|ring]|].
    destruct y as [[k' n'] t']; simpl.
    destruct (Qle_bool t' t); simpl; [split; [reflexivity|ring]|].
    destruct IH as [H1 H2].
    split; [rewrite H1; simpl; lia|rewrite H2; simpl; ring]. }
  induction l as [|x l IH]; simpl; [split; [reflexivity|reflexivity]|].
  destruct (Hins x (sort_by_total l)) as [H1 H2]; destruct IH as [I1 I2].
  destruct x as [[k n] t]; simpl in *.
  split; [rewrite H1, I1; reflexivity|rewrite H2, I2; reflexivity].
Qed.

(** The statistics agree with each other: the per-risk-level and
    per-anomaly-type counts add up to the number of invoices, the "High"
    group holds high_risk_count invoices, the per-vendor counts and totals
    add up to the number of invoices and to total_amount, and avg_amount
    times the number of invoices is total_amount.  With no invoice the sum
    and the average are NULL. *)
Theorem get_invoice_stats_consistent (s : store) :
  let st := get_invoice_stats s in
  sum_counts (stat_by_risk_level st) = stat_total_invoices st /\
  sum_counts (stat_by_anomaly_type st) = stat_total_invoices st /\
  group_lookup "High" (stat_by_risk_level st) = stat_high_risk_count st /\
  vendor_count_sum (stat_by_vendor st) = stat_total_invoices st /\
  (stat_total_amount st = None <-> stat_total_invoices st = 0%nat) /\
  (forall tot, stat_total_amount st = Some tot -> vendor_total_sum (stat_by_vendor st) == tot) /\
  (forall avg tot, stat_avg_amount st = Some avg -> stat_total_amount st = Some tot ->
     avg * inject_Z (Z.of_nat (stat_total_invoices st)) == tot).
Proof.
  cbv zeta; unfold get_invoice_stats; cbn [stat_by_risk_level stat_by_anomaly_type
    stat_total_invoices stat_high_risk_count stat_by_vendor stat_total_amount stat_avg_amount].
  unfold group_count, vendor_groups.
  destruct (group_fold r_risk_level "High" (invoices s) []) as [R1 R2].
  destruct (group_fold r_anomaly_type "High" (invoices s) []) as [A1 _].
  destruct (sort_by_total_sums (fold_left (fun g r => add_vendor_group (r_vendor_name r)
              (r_total_amount r) g) (invoices s) [])) as [S1 S2].
  destruct (vendor_groups_fold (invoices s) []) as [V1 V2]; cbv zeta in V1, V2.
  split; [rewrite R1; simpl; lia|].
  split; [rewrite A1; simpl; lia|].
  split; [rewrite R2; reflexivity|].
  split; [rewrite S1, V1; simpl; lia|].
  destruct (invoices s) as [|r rows] eqn:Hrows.
  - split; [tauto|]; split; intros; discriminate.
  - split; [split; [discriminate|simpl; discriminate]|].
    split.
    + intros tot H; injection H as <-; rewrite S2, V2; simpl; ring.
    + intros avg tot Ha Ht; injection Ha as <-; injection Ht as <-.
      unfold meanQ; change (r_total_amount r :: map r_total_amount rows)
        with (map r_total_amount (r :: rows)); rewrite length_map.
      replace (r_total_amount r + sumQ (map r_total_amount rows))
        with (sumQ (map r_total_amount (r :: rows))) by reflexivity.
      set (q := inject_Z (Z.of_nat (List.length (r :: rows)))).
      assert (Hn : ~ q == 0) by (unfold q, Qeq; simpl; lia).
      field; exact Hn.
Qed.

(** * Properties of [InvoiceSearchEngine._parse_search_term] *)

Definition vendor_words : list string := ["vendor"; "supplier"; "company"].
Definition id_prefixes : list string := ["INV-"; "DIG-"; "SCAN-"; "DUP-"].
Definition amount_words : list string := ["usd"; "amount"; "total"].
Definition month_words : list string :=
  ["jan"; "feb"; "mar"; "apr"; "may"; "jun"; "jul"; "aug"; "sep"; "oct"; "nov"; "dec"].

(** Number of characters of a LIKE pattern other than [%]: each of them
    consumes one character of the matched string. *)
Fixpoint nonpct_len (p : string) : nat :=
  match p with
  | EmptyString => 0%nat
  | String c t => ((if Ascii.eqb c "%"%char then 0 else 1) + nonpct_len t)%nat
  end.

Lemma where_no_filters (r : inv_row) : where_clause (Some no_filters) r = true.
Proof. reflexivity. Qed.

Lemma filter_no_filters (l : list inv_row) : filter (where_clause (Some no_filters)) l = l.
Proof. induction l as [|r l IH]; simpl; [reflexivity|rewrite IH; reflexivity]. Qed.

Lemma where_amount_range (lo hi : Q) (r : inv_row) :
  ~ lo == 0 -> ~ hi == 0 ->
  (where_clause (Some (mkFilters None None None (Some lo) (Some hi) None None None)) r = true
   <-> lo <= r_total_amount r /\ r_total_amount r <= hi).
Proof.
  intros Hlo Hhi; unfold where_clause, truthy_num, truthy_str; cbn [f_vendor f_start_date
    f_end_date f_min_amount f_max_amount f_risk_level f_anomaly_type f_status].
  destruct (Qeq_bool lo 0) eqn:E1; [apply Qeq_bool_iff in E1; contradiction|].
  destruct (Qeq_bool hi 0) eqn:E2; [apply Qeq_bool_iff in E2; contradiction|].
  rewrite !andb_true_iff, !Qle_bool_iff; intuition.
Qed.

Lemma where_amount_zero (lo hi : Q) (r : inv_row) :
  lo == 0 -> hi == 0 ->
  where_clause (Some (mkFilters None None None (Some lo) (Some hi) None None None)) r = true.
Proof.
  intros Hlo Hhi; unfold where_clause, truthy_num, truthy_str; cbn [f_vendor f_start_date
    f_end_date f_min_amount f_max_amount f_risk_level f_anomaly_type f_status].
  apply Qeq_bool_iff in Hlo; apply Qeq_bool_iff in Hhi; rewrite Hlo, Hhi; reflexivity.
Qed.

Lemma nonpct_len_app (a b : string) : nonpct_len (a ++ b) = (nonpct_len a + nonpct_len b)%nat.
Proof. induction a as [|c a IH]; simpl; [reflexivity|rewrite IH; lia]. Qed.

Lemma like_length (p : string) : forall s, like p s = true -> (nonpct_len p <= String.length s)%nat.
Proof.
  induction p as [|c p IH]; intros s H; simpl; [lia|].
  destruct (Ascii.eqb c "%"%char) eqn:Ec.
  - simpl.
    induction s as [|a t IHs].
    + rewrite (like_percent c p "" Ec), orb_false_r in H; apply IH in H; exact H.
    + rewrite (like_percent c p _ Ec) in H; apply orb_true_iff in H as [H|H].
      * apply IH in H; exact H.
      * apply IHs in H; simpl; lia.
  - simpl in H; rewrite Ec in H; destruct s as [|a t]; [discriminate|].
    apply andb_true_iff in H as [_ H]; apply IH in H; simpl; lia.
Qed.

(** A term that names an invoice ID prefix (INV-, DIG-, SCAN-, DUP-), or a
    month with no amount marker, gives no filter at all (when it has no
    vendor word): the search then returns every invoice, and total_count is
    the number of invoices. *)
Theorem search_term_without_filter (t : string) (s : store) (page per_page : Z)
  (Hv : any_in vendor_words (py_lower t) = false)
  (Hk : any_in id_prefixes (py_upper t) = true \/
        ((contains "$" t || any_in amount_words (py_lower t)) = false /\
         any_in month_words (py_lower t) = true)) :
  parse_search_term t = no_filters /\
  sr_total_count (search_invoices s (Some (parse_search_term t)) page per_page) =
    Z.of_nat (List.length (invoices s)).
Proof.
  assert (Hp : parse_search_term t = no_filters).
  { unfold parse_search_term; cbv zeta; unfold vendor_words, id_prefixes, amount_words,
      month_words in *; rewrite Hv.
    destruct Hk as [Hk|[Ha Hm]]; [rewrite Hk; reflexivity|].
    destruct (any_in ["INV-"; "DIG-"; "SCAN-"; "DUP-"] (py_upper t)); [reflexivity|].
    rewrite Ha, Hm; reflexivity. }
  split; [exact Hp|].
  rewrite Hp; unfold search_invoices; cbn [sr_total_count].
  rewrite order_rows_length, filter_no_filters; reflexivity.
Qed.

(** A term with an amount marker ([$], usd, amount or total; no vendor
    word, no ID prefix) filters on the amount read from its digits and dots:
    for a positive amount [a] an invoice matches exactly when its total lies
    within [0.9 a, 1.1 a]; an amount of zero is dropped as falsy and every
    invoice matches; when no number can be read (no digit, two dots, or a
    superscript digit) every invoice matches. *)
Theorem search_term_amount (t : string) (r : inv_row)
  (Hv : any_in vendor_words (py_lower t) = false)
  (Hk : any_in id_prefixes (py_upper t) = false)
  (Ha : (contains "$" t || any_in amount_words (py_lower t)) = true) :
  (forall a, py_float_digits (keep_digits_dots t) = Some a -> 0 < a ->
     (where_clause (Some (parse_search_term t)) r = true <->
      a * (9 # 10) <= r_total_amount r /\ r_total_amount r <= a * (11 # 10))) /\
  (forall a, py_float_digits (keep_digits_dots t) = Some a -> a == 0 ->
     where_clause (Some (parse_search_term t)) r = true) /\
  (py_float_digits (keep_digits_dots t) = None ->
     where_clause (Some (parse_search_term t)) r = true).
Proof.
  unfold parse_search_term; cbv zeta; unfold vendor_words, id_prefixes, amount_words in *.
  rewrite Hv, Hk, Ha.
  split; [|split].
  - intros a Hf Hpos; rewrite Hf; apply where_amount_range; intro E; lra.
  - intros a Hf Hz; rewrite Hf; apply where_amount_zero; rewrite Hz; reflexivity.
  - intros Hf; rewrite Hf; apply where_no_filters.
Qed.

(** A term with a vendor word (vendor, supplier, company) is searched as a
    vendor name with the word kept in it: it becomes the pattern
    [%term%], so an invoice matches only if its vendor name is at least as
    long as the term without its [%] signs. *)
Theorem vendor_word_term (t : string) (r : inv_row)
  (Hv : any_in vendor_words (py_lower t) = true)
  (Hm : where_clause (Some (parse_search_term t)) r = true) :
  parse_search_term t = vendor_only t /\
  like ("%" ++ t ++ "%") (r_vendor_name r) = true /\
  (nonpct_len t <= String.length (r_vendor_name r))%nat.
Proof.
  assert (Hp : parse_search_term t = vendor_only t).
  { unfold parse_search_term; cbv zeta; unfold vendor_words in Hv; rewrite Hv; reflexivity. }
  assert (Ht : t <> ""%string) by (intro E; subst t; discriminate Hv).
  rewrite Hp in Hm; unfold where_clause, vendor_only in Hm; cbn [f_vendor f_start_date
    f_end_date f_min_amount f_max_amount f_risk_level f_anomaly_type f_status] in Hm.
  unfold truthy_str in Hm at 1.
  destruct (String.eqb t "") eqn:E; [apply String.eqb_eq in E; contradiction|].
  apply andb_true_iff in Hm as [Hm _]; apply andb_true_iff in Hm as [Hm _].
  repeat (apply andb_true_iff in Hm as [Hm _]).
  split; [exact Hp|]; split; [exact Hm|].
  apply like_length in Hm; rewrite !nonpct_len_app in Hm; simpl in Hm; lia.
Qed.

Definition row_globex_950 : inv_row :=
  mkInvRow 2 "INV-7003" "Globex Supplier Ltd" "2024-03-06" None 950 95 "" "" "Unknown" "Digital"
    (Some "Pending") "Low" "No Anomaly" 0.

Lemma search_term_without_filter_witness :
  parse_search_term "INV-1001" = no_filters /\
  sr_total_count (search_invoices store_init (Some (parse_search_term "INV-1001")) 1 20) = 0%Z.
Proof.
  apply (search_term_without_filter "INV-1001" store_init 1 20);
    [vm_compute; reflexivity|left; vm_compute; reflexivity].
Defined.

Lemma search_term_amount_witness :
  py_float_digits (keep_digits_dots "$1,000") = Some 1000 /\
  (where_clause (Some (parse_search_term "$1,000")) row_globex_950 = true <->
   1000 * (9 # 10) <= 950 /\ 950 <= 1000 * (11 # 10)).
Proof.
  split; [vm_compute; reflexivity|].
  apply (proj1 (search_term_amount "$1,000" row_globex_950
    ltac:(vm_compute; reflexivity) ltac:(vm_compute; reflexivity) ltac:(vm_compute; reflexivity)));
    [vm_compute; reflexivity|lra].
Defined.

Lemma vendor_word_term_witness :
  parse_search_term "globex supplier" = vendor_only "globex supplier" /\
  like ("%" ++ "globex supplier" ++ "%") (r_vendor_name row_globex_950) = true /\
  (nonpct_len "globex supplier" <= String.length (r_vendor_name row_globex_950))%nat.
Proof.
  apply (vendor_word_term "globex supplier" row_globex_950);
    vm_compute; reflexivity.
Defined.
